(** * Wind-Forecast: the forecast endpoint and the chart renderer of [app.py]

    The program is a Flask application with one JSON endpoint.  The
    development embeds [fetch_openmeteo], [_LoopRunner.run], [render_png]
    and [api_forecast] as Rocq functions, over a model of the pieces of the
    Python runtime they call (exceptions, [str.replace], slices, [float],
    [datetime], [numpy] reductions).  The remote service, the parser of
    ISO texts and the drawing calls of Matplotlib are parameters. *)

From Stdlib Require Import ZArith List String Ascii Bool Lia QArith.
From Stdlib Require Import Floats Sorting.Sorted.
Import ListNotations.

Set Warnings "-inexact-float,-register-all,-notation-for-abbreviation".

Local Open Scope string_scope.
Local Open Scope Z_scope.

(** * The Python runtime used by the program *)

Module Py.

(** ** Exceptions

    Every exception modelled here derives from [Exception], which is what
    both [except Exception] clauses of the handler catch.  [exn_text] is
    what [str(e)] returns. *)

Inductive exn_class : Type :=
| BadRequest
| KeyError
| TypeError
| ValueError
| OverflowError
| IndexError
| TimeoutError
| OtherError (name : string).

Record exn : Type := mkExn { exn_kind : exn_class; exn_text : string }.

Inductive result (A : Type) : Type :=
| Ok (a : A)
| Raise (e : exn).

Arguments Ok {A} a.
Arguments Raise {A} e.

Definition bind {A B : Type} (r : result A) (k : A -> result B) : result B :=
  match r with
  | Ok a => k a
  | Raise e => Raise e
  end.

Definition of_option {A : Type} (o : option A) (e : exn) : result A :=
  match o with
  | Some a => Ok a
  | None => Raise e
  end.

(** ** Strings *)

Definition chars (s : string) : list ascii := list_ascii_of_string s.

Definition text (l : list ascii) : string := string_of_list_ascii l.

(** [str.replace(old, new)] for a non-empty [old]: every occurrence, left to
    right, without overlap.  [skip] counts the characters of a matched
    occurrence that are still to be dropped. *)
Fixpoint replace_from (old new : string) (skip : nat) (s : string) : string :=
  match s with
  | EmptyString => EmptyString
  | String c s' =>
      match skip with
      | S k => replace_from old new k s'
      | O =>
          if prefix old s
          then new ++ replace_from old new (String.length old - 1) s'
          else String c (replace_from old new O s')
      end
  end.

Definition str_replace (old new s : string) : string :=
  replace_from old new O s.

(** ** Sequences

    [xs[0:n]]: a negative bound counts from the end, a bound past the end
    stops at the end; a slice never raises. *)
Definition slice_to {A : Type} (n : Z) (xs : list A) : list A :=
  if n <? 0
  then firstn (Z.to_nat (Z.max 0 (Z.of_nat (List.length xs) + n))) xs
  else firstn (Z.to_nat n) xs.

(** [xs[0]] and [xs[-1]] raise [IndexError] on an empty list. *)
Definition index_error : exn := mkExn IndexError "list index out of range".

Definition item_first {A : Type} (xs : list A) : result A :=
  of_option (hd_error xs) index_error.

Definition item_last {A : Type} (xs : list A) : result A :=
  of_option (hd_error (rev xs)) index_error.

(** ** Floats

    A Python [float] is an IEEE 754 binary64 number, as is [PrimFloat.float]. *)

(** [float(n)] for an [int]: the nearest double, [OverflowError] when that
    is not finite. *)
Definition float_of_int (n : Z) : result float :=
  let f := SF2Prim (binary_normalize prec emax n 0 false) in
  if is_infinity f
  then Raise (mkExn OverflowError "int too large to convert to float")
  else Ok f.

(** The value [m * 10^e10], rounded once to the nearest double.  A value
    of [2^1100] or more is rounded to infinity and one below [2^-1100] to
    zero; these two are decided from the sizes, without the power. *)
Definition float_of_decimal (neg : bool) (m e10 : Z) : float :=
  let sgn (z : Z) := if neg then - z else z in
  if m =? 0 then (if neg then neg_zero else zero)
  else if (0 <=? e10) && (1100 <? Z.log2 m + 3 * e10)
  then (if neg then neg_infinity else infinity)
  else if (e10 <? 0) && (Z.log2 m + 1 + 3 * e10 <? - 1100)
  then (if neg then neg_zero else zero)
  else if 0 <=? e10
  then SF2Prim (binary_normalize prec emax (sgn (m * 10 ^ e10)) 0 false)
  else
    let d := 10 ^ (- e10) in
    let k := Z.max 0 (64 + Z.log2 d - Z.log2 m) in
    let q := (m * 2 ^ k) / d in
    let sticky := if (m * 2 ^ k) mod d =? 0 then 0 else 1 in
    SF2Prim (binary_normalize prec emax (sgn (2 * q + sticky)) (- k - 1) false).

(** The white space that [float] drops around an ASCII text: tab, line
    feed, vertical tab, form feed, carriage return and the blank. *)
Definition is_space (c : ascii) : bool :=
  let n := N_of_ascii c in
  ((9 <=? n) && (n <=? 13) || (n =? 32))%N.

Definition is_digit (c : ascii) : bool :=
  let n := N_of_ascii c in ((48 <=? n) && (n <=? 57))%N.

Definition digit_value (c : ascii) : Z := Z.of_N (N_of_ascii c) - 48.

Definition lower (c : ascii) : ascii :=
  let n := N_of_ascii c in
  if ((65 <=? n) && (n <=? 90))%N then ascii_of_N (n + 32) else c.

Fixpoint lstrip (l : list ascii) : list ascii :=
  match l with
  | c :: r => if is_space c then lstrip r else l
  | [] => []
  end.

Definition strip (l : list ascii) : list ascii :=
  rev (lstrip (rev (lstrip l))).

(** The digits that follow a first digit: [(["_"] digit)*]. *)
Fixpoint digits_run (l : list ascii) : list Z * list ascii :=
  match l with
  | c :: r =>
      if is_digit c
      then let (ds, rest) := digits_run r in (digit_value c :: ds, rest)
      else if (c =? "_")%char
      then match r with
           | d :: r' =>
               if is_digit d
               then let (ds, rest) := digits_run r' in (digit_value d :: ds, rest)
               else ([], l)
           | [] => ([], l)
           end
      else ([], l)
  | [] => ([], [])
  end.

(** [digitpart ::= digit (["_"] digit)*] *)
Definition digitpart (l : list ascii) : option (list Z * list ascii) :=
  match l with
  | c :: r =>
      if is_digit c
      then let (ds, rest) := digits_run r in Some (digit_value c :: ds, rest)
      else None
  | [] => None
  end.

Definition number_of_digits (ds : list Z) : Z :=
  fold_left (fun acc d => 10 * acc + d) ds 0.

(** [number ::= [digitpart] "." digitpart | digitpart ["."]]: the integer
    digits, the fraction digits and what follows. *)
Definition number (l : list ascii) : option (list Z * list Z * list ascii) :=
  match digitpart l with
  | Some (ip, rest) =>
      match rest with
      | c :: r2 =>
          if (c =? ".")%char
          then match digitpart r2 with
               | Some (fp, rest') => Some (ip, fp, rest')
               | None => Some (ip, [], r2)
               end
          else Some (ip, [], rest)
      | [] => Some (ip, [], [])
      end
  | None =>
      match l with
      | c :: r2 =>
          if (c =? ".")%char
          then match digitpart r2 with
               | Some (fp, rest') => Some ([], fp, rest')
               | None => None
               end
          else None
      | [] => None
      end
  end.

Definition sign_of (l : list ascii) : bool * list ascii :=
  match l with
  | c :: r =>
      if (c =? "-")%char then (true, r)
      else if (c =? "+")%char then (false, r)
      else (false, l)
  | [] => (false, [])
  end.

(** [exponent ::= ("e" | "E") [sign] digitpart], up to the end of the text. *)
Definition exponent (l : list ascii) : option Z :=
  match l with
  | [] => Some 0
  | c :: r =>
      if (lower c =? "e")%char
      then let (neg, r') := sign_of r in
           match digitpart r' with
           | Some (ds, []) =>
               Some (if neg then - number_of_digits ds else number_of_digits ds)
           | _ => None
           end
      else None
  end.

(** *** Text that is not ASCII

    A [str] is held as the bytes of its UTF-8 form.  [code_points] reads
    them back; a lone surrogate, which a JSON escape can put into a [str],
    has its three-byte form.  Bytes that are no UTF-8 text stand for no
    [str]. *)

Definition continuation (c : ascii) : option N :=
  let n := N_of_ascii c in
  if ((128 <=? n) && (n <? 192))%N then Some (n - 128)%N else None.

Fixpoint code_points (l : list ascii) : option (list N) :=
  match l with
  | [] => Some []
  | b :: r =>
      let n := N_of_ascii b in
      if (n <? 128)%N then option_map (cons n) (code_points r)
      else if (n <? 194)%N then None
      else if (n <? 224)%N then
        match r with
        | c1 :: r1 =>
            match continuation c1 with
            | Some x1 =>
                option_map (cons ((n - 192) * 64 + x1)%N) (code_points r1)
            | None => None
            end
        | [] => None
        end
      else if (n <? 240)%N then
        match r with
        | c1 :: c2 :: r2 =>
            match continuation c1, continuation c2 with
            | Some x1, Some x2 =>
                let cp := ((n - 224) * 4096 + x1 * 64 + x2)%N in
                if (cp <? 2048)%N then None
                else option_map (cons cp) (code_points r2)
            | _, _ => None
            end
        | _ => None
        end
      else if (n <? 245)%N then
        match r with
        | c1 :: c2 :: c3 :: r3 =>
            match continuation c1, continuation c2, continuation c3 with
            | Some x1, Some x2, Some x3 =>
                let cp := ((n - 240) * 262144 + x1 * 4096 + x2 * 64 + x3)%N in
                if ((cp <? 65536) || (1114111 <? cp))%N then None
                else option_map (cons cp) (code_points r3)
            | _, _, _ => None
            end
        | _ => None
        end
      else None
  end.

(** The characters for which [str.isspace] holds (Unicode 14, the
    database of Python 3.11). *)
Definition unicode_spaces : list N :=
  [9; 10; 11; 12; 13; 28; 29; 30; 31; 32; 133; 160; 5760;
   8192; 8193; 8194; 8195; 8196; 8197; 8198; 8199; 8200; 8201; 8202;
   8232; 8233; 8239; 8287; 12288]%N.

Definition is_unicode_space (c : N) : bool := existsb (N.eqb c) unicode_spaces.

(** The decimal digits of Unicode 14 come in runs of ten, zero to nine;
    these are the zeros. *)
Definition decimal_zeros : list N :=
  [48; 1632; 1776; 1984; 2406; 2534; 2662; 2790; 2918; 3046; 3174; 3302;
   3430; 3558; 3664; 3792; 3872; 4160; 4240; 6112; 6160; 6470; 6608; 6784;
   6800; 6992; 7088; 7232; 7248; 42528; 43216; 43264; 43472; 43504; 43600;
   44016; 65296; 66720; 68912; 69734; 69872; 69942; 70096; 70384; 70736;
   70864; 71248; 71360; 71472; 71904; 72016; 72784; 73040; 73120; 92768;
   92864; 93008; 120782; 120792; 120802; 120812; 120822; 123200; 123632;
   125264; 130032]%N.

Definition to_decimal (c : N) : option N :=
  option_map (fun z => c - z)%N
    (find (fun z => (z <=? c) && (c <? z + 10))%N decimal_zeros).

(** What [float] makes of a text that is not ASCII before it parses it:
    a white-space character becomes a blank and a decimal digit its ASCII
    digit; at the first other character that is not ASCII the text ends,
    with a ["?"]. *)
Fixpoint to_ascii_digits (cps : list N) : list ascii :=
  match cps with
  | [] => []
  | c :: r =>
      if (c <? 127)%N then ascii_of_N c :: to_ascii_digits r
      else if is_unicode_space c then " "%char :: to_ascii_digits r
      else match to_decimal c with
           | Some d => ascii_of_N (48 + d) :: to_ascii_digits r
           | None => ["?"%char]
           end
  end.

(** An ASCII text is parsed as it is. *)
Definition ascii_form (l : list ascii) : option (list ascii) :=
  if forallb (fun c => N_of_ascii c <? 128)%N l then Some l
  else option_map to_ascii_digits (code_points l).

(** [float(s)] for a [str]: on the ASCII form of the text, surrounding
    white space is dropped, then
    [[sign] (floatnumber | "inf" | "infinity" | "nan")] in any letter
    case. *)
Definition float_of_str (s : string) : option float :=
  match ascii_form (chars s) with
  | None => None
  | Some l =>
      let (neg, body) := sign_of (strip l) in
      let word := text (map lower body) in
      if String.eqb word "inf" || String.eqb word "infinity"
      then Some (if neg then neg_infinity else infinity)
      else if String.eqb word "nan" then Some nan
      else
        match number body with
        | Some (ip, fp, rest) =>
            match exponent rest with
            | Some e =>
                Some (float_of_decimal neg (number_of_digits (ip ++ fp)%list)
                        (e - Z.of_nat (List.length fp)))
            | None => None
            end
        | None => None
        end
  end.

(** ** Dates and times

    A [datetime.datetime] value: the civil fields and the UTC offset of its
    [tzinfo] in microseconds, [None] for a naive value. *)

Record datetime : Type := mkDatetime {
  year : Z;
  month : Z;
  day : Z;
  hour : Z;
  minute : Z;
  second : Z;
  microsecond : Z;
  tzinfo : option Z
}.

Definition is_leap (y : Z) : bool :=
  (y mod 4 =? 0) && (negb (y mod 100 =? 0) || (y mod 400 =? 0)).

Definition days_in_month (y m : Z) : Z :=
  if (m =? 2) && is_leap y then 29
  else nth (Z.to_nat m) [0; 31; 28; 31; 30; 31; 30; 31; 31; 30; 31; 30; 31] 0.

Definition days_before_year (y : Z) : Z :=
  let y1 := y - 1 in y1 * 365 + y1 / 4 - y1 / 100 + y1 / 400.

Definition days_before_month (y m : Z) : Z :=
  nth (Z.to_nat m) [0; 0; 31; 59; 90; 120; 151; 181; 212; 243; 273; 304; 334] 0
  + (if (2 <? m) && is_leap y then 1 else 0).

(** The proleptic Gregorian ordinal, day 1 being 0001-01-01. *)
Definition ymd2ord (y m d : Z) : Z :=
  days_before_year y + days_before_month y m + d.

Definition day_us : Z := 86400 * 1000000.

(** The checks of the [datetime] constructor and of [timezone]. *)
Definition valid_datetime (d : datetime) : bool :=
  (1 <=? year d) && (year d <=? 9999)
  && (1 <=? month d) && (month d <=? 12)
  && (1 <=? day d) && (day d <=? days_in_month (year d) (month d))
  && (0 <=? hour d) && (hour d <=? 23)
  && (0 <=? minute d) && (minute d <=? 59)
  && (0 <=? second d) && (second d <=? 59)
  && (0 <=? microsecond d) && (microsecond d <=? 999999)
  && match tzinfo d with
     | Some off => (- day_us <? off) && (off <? day_us)
     | None => true
     end.

(** Microseconds between 1970-01-01T00:00:00 and the civil fields. *)
Definition civil_us (d : datetime) : Z :=
  ((ymd2ord (year d) (month d) (day d) - 719163) * 86400
   + hour d * 3600 + minute d * 60 + second d) * 1000000
  + microsecond d.

(** [d.timestamp()] in microseconds: a naive value is read in the local
    zone, whose offset [local] is given in seconds east of UTC. *)
Definition timestamp_us (local : Z) (d : datetime) : Z :=
  match tzinfo d with
  | Some off => civil_us d - off
  | None => civil_us d - local * 1000000
  end.

(** [datetime.fromtimestamp(0)]: the epoch as a naive local time, for a
    local offset of less than a day. *)
Definition fromtimestamp0 (local : Z) : datetime :=
  let s := local mod 86400 in
  let '(y, m, d) := if 0 <=? local then (1970, 1, 1) else (1969, 12, 31) in
  mkDatetime y m d (s / 3600) (s mod 3600 / 60) (s mod 60) 0 None.

(** The comparison [a <= b] of two values with the same [tzinfo]: the
    civil fields, most significant first. *)
Definition fields (d : datetime) : list Z :=
  [year d; month d; day d; hour d; minute d; second d; microsecond d].

Fixpoint lex_compare (a b : list Z) : comparison :=
  match a, b with
  | [], [] => Eq
  | [], _ :: _ => Lt
  | _ :: _, [] => Gt
  | x :: a', y :: b' =>
      match x ?= y with
      | Eq => lex_compare a' b'
      | c => c
      end
  end.

Definition datetime_le (a b : datetime) : Prop :=
  lex_compare (fields a) (fields b) <> Gt.

(** *** Formatting *)

Definition digit_char (n : Z) : ascii := ascii_of_N (Z.to_N (48 + n)).

(** The last [k] decimal digits of [n]. *)
Fixpoint fixed (k : nat) (n : Z) : string :=
  match k with
  | O => EmptyString
  | S k' => fixed k' (n / 10) ++ String (digit_char (n mod 10)) EmptyString
  end.

Fixpoint ndigits (fuel : nat) (n : Z) : nat :=
  match fuel with
  | O => 1%nat
  | S f => if n <? 10 then 1%nat else S (ndigits f (n / 10))
  end.

(** ["%0kd" % n] for [n >= 0]. *)
Definition pad (k : nat) (n : Z) : string :=
  if n <? 10 ^ Z.of_nat k then fixed k n
  else fixed (ndigits (Z.to_nat (Z.log2 n)) n) n.

Definition format_time (hh mm ss us : Z) : string :=
  pad 2 hh ++ ":" ++ pad 2 mm ++ ":" ++ pad 2 ss
  ++ (if us =? 0 then EmptyString else "." ++ pad 6 us).

Definition format_offset (off : option Z) : string :=
  match off with
  | None => EmptyString
  | Some o =>
      let sign := if o <? 0 then "-" else "+" in
      let a := Z.abs o in
      let hh := a / 3600000000 in
      let r := a mod 3600000000 in
      let mm := r / 60000000 in
      let ss := r mod 60000000 in
      sign ++ pad 2 hh ++ ":" ++ pad 2 mm
      ++ (if ss =? 0 then EmptyString
          else ":" ++ pad 2 (ss / 1000000)
               ++ (if ss mod 1000000 =? 0 then EmptyString
                   else "." ++ pad 6 (ss mod 1000000)))
  end.

(** [d.isoformat()] *)
Definition isoformat (d : datetime) : string :=
  pad 4 (year d) ++ "-" ++ pad 2 (month d) ++ "-" ++ pad 2 (day d) ++ "T"
  ++ format_time (hour d) (minute d) (second d) (microsecond d)
  ++ format_offset (tzinfo d).

(** *** Parsing

    [datetime.fromisoformat] accepts more from one Python version to the
    next, so the program is embedded over any parser.  [fromisoformat_strict]
    reads the texts that [isoformat] writes,
    [YYYY-MM-DD[*HH[:MM[:SS[.fff[fff]]]][+HH:MM[:SS[.ffffff]]]]], which every
    version since 3.7 reads the same way; it is the parser of the examples. *)

Definition int_of (l : list ascii) : option Z :=
  match l with
  | [] => None
  | _ => if forallb is_digit l
         then Some (number_of_digits (map digit_value l))
         else None
  end.

(** [HH[:MM[:SS[.fff[fff]]]]]: hours, minutes, seconds, microseconds. *)
Definition parse_hh_mm_ss_ff (l : list ascii) : option (Z * Z * Z * Z) :=
  match int_of (firstn 2 l), skipn 2 l with
  | Some hh, [] => if (List.length l =? 2)%nat then Some (hh, 0, 0, 0) else None
  | Some hh, c1 :: l1 =>
      if negb (c1 =? ":")%char then None else
      match int_of (firstn 2 l1), skipn 2 l1 with
      | Some mm, [] =>
          if (List.length l1 =? 2)%nat then Some (hh, mm, 0, 0) else None
      | Some mm, c2 :: l2 =>
          if negb (c2 =? ":")%char then None else
          match int_of (firstn 2 l2), skipn 2 l2 with
          | Some ss, [] =>
              if (List.length l2 =? 2)%nat then Some (hh, mm, ss, 0) else None
          | Some ss, c3 :: l3 =>
              if negb (c3 =? ".")%char then None else
              match int_of l3 with
              | Some ff =>
                  if (List.length l3 =? 3)%nat then Some (hh, mm, ss, ff * 1000)
                  else if (List.length l3 =? 6)%nat then Some (hh, mm, ss, ff)
                  else None
              | None => None
              end
          | None, _ => None
          end
      | None, _ => None
      end
  | None, _ => None
  end.

(** The position of the first ["+"] or ["-"]. *)
Fixpoint split_at_sign (l : list ascii) : list ascii * option (bool * list ascii) :=
  match l with
  | [] => ([], None)
  | c :: r =>
      if (c =? "+")%char then ([], Some (false, r))
      else if (c =? "-")%char then ([], Some (true, r))
      else let (t, z) := split_at_sign r in (c :: t, z)
  end.

Definition parse_offset (neg : bool) (l : list ascii) : option Z :=
  if negb (existsb (Nat.eqb (List.length l)) [5; 8; 15]%nat) then None else
  match parse_hh_mm_ss_ff l with
  | Some (hh, mm, ss, ff) =>
      let o := ((hh * 3600 + mm * 60 + ss) * 1000000 + ff) in
      Some (if neg then - o else o)
  | None => None
  end.

Definition parse_isoformat_time (l : list ascii)
  : option (Z * Z * Z * Z * option Z) :=
  let (t, z) := split_at_sign l in
  match parse_hh_mm_ss_ff t with
  | Some (hh, mm, ss, ff) =>
      match z with
      | None => Some (hh, mm, ss, ff, None)
      | Some (neg, zl) =>
          match parse_offset neg zl with
          | Some o => Some (hh, mm, ss, ff, Some o)
          | None => None
          end
      end
  | None => None
  end.

Definition parse_isoformat_date (l : list ascii) : option (Z * Z * Z) :=
  match l with
  | [y1; y2; y3; y4; s1; m1; m2; s2; d1; d2] =>
      if (s1 =? "-")%char && (s2 =? "-")%char then
        match int_of [y1; y2; y3; y4], int_of [m1; m2], int_of [d1; d2] with
        | Some y, Some m, Some d => Some (y, m, d)
        | _, _, _ => None
        end
      else None
  | _ => None
  end.

Definition checked (d : datetime) : option datetime :=
  if valid_datetime d then Some d else None.

Definition fromisoformat_strict (s : string) : option datetime :=
  let l := chars s in
  match parse_isoformat_date (firstn 10 l) with
  | Some (y, m, d) =>
      match skipn 10 l with
      | [] => checked (mkDatetime y m d 0 0 0 0 None)
      | _ :: tl =>
          match parse_isoformat_time tl with
          | Some (hh, mm, ss, ff, tz) =>
              checked (mkDatetime y m d hh mm ss ff tz)
          | None => None
          end
      end
  | None => None
  end.

(** ** Arrays

    [np.min] and [np.max] of a one-dimensional array of doubles: a NaN
    element makes the result NaN, an empty array raises [ValueError]. *)

Definition np_minimum (a b : float) : float :=
  if is_nan a then a else if is_nan b then b
  else if (b <? a)%float then b else a.

Definition np_maximum (a b : float) : float :=
  if is_nan a then a else if is_nan b then b
  else if (a <? b)%float then b else a.

Definition zero_size (op : string) : exn :=
  mkExn ValueError
    ("zero-size array to reduction operation " ++ op
     ++ " which has no identity").

Definition np_min (xs : list float) : result float :=
  match xs with
  | [] => Raise (zero_size "minimum")
  | x :: r => Ok (fold_left np_minimum r x)
  end.

Definition np_max (xs : list float) : result float :=
  match xs with
  | [] => Raise (zero_size "maximum")
  | x :: r => Ok (fold_left np_maximum r x)
  end.

(** [plt.Normalize(vmin, vmax)(values)]: the position of each value
    between [vmin] and [vmax]; all zero when the two are equal, and a
    [ValueError] when [vmin] is above [vmax]. *)
Definition normalize_values (vmin vmax : float) (values : list float)
  : result (list float) :=
  if (vmin =? vmax)%float then Ok (map (fun _ => 0%float) values)
  else if (vmax <? vmin)%float
  then Raise (mkExn ValueError "minvalue must be less than or equal to maxvalue")
  else Ok (map (fun v => (v - vmin) / (vmax - vmin))%float values).

(** The shape of [a - b] for one-dimensional arrays: equal lengths, or one
    of them of length one, which is then repeated. *)
Definition broadcast {A B : Type} (a : list A) (b : list B)
  : result (list (A * B)) :=
  match a, b with
  | [x], _ => Ok (map (fun y => (x, y)) b)
  | _, [y] => Ok (map (fun x => (x, y)) a)
  | _, _ =>
      if (List.length a =? List.length b)%nat then Ok (combine a b)
      else Raise (mkExn ValueError "operands could not be broadcast together")
  end.

End Py.

Import Py.

Notation "x <- e ;; k" := (bind e (fun x => k))
  (at level 61, e at next level, right associativity).

(** * Data of the program *)

(** A value decoded from JSON.  A [dict] keeps its entries in order, with
    one entry per key. *)
Inductive json : Type :=
| JNull
| JBool (b : bool)
| JInt (n : Z)
| JFloat (f : float)
| JStr (s : string)
| JList (l : list json)
| JDict (kvs : list (string * json)).

Fixpoint dict_get (k : string) (kvs : list (string * json)) : option json :=
  match kvs with
  | [] => None
  | (k', v) :: r => if String.eqb k k' then Some v else dict_get k r
  end.

(** [v[k]] for a string key. *)
Definition getitem (v : json) (k : string) : result json :=
  match v with
  | JDict kvs => of_option (dict_get k kvs) (mkExn KeyError ("'" ++ k ++ "'"))
  | JList _ => Raise (mkExn TypeError "list indices must be integers or slices, not str")
  | JStr _ => Raise (mkExn TypeError "string indices must be integers, not 'str'")
  | JNull => Raise (mkExn TypeError "'NoneType' object is not subscriptable")
  | JBool _ => Raise (mkExn TypeError "'bool' object is not subscriptable")
  | JInt _ => Raise (mkExn TypeError "'int' object is not subscriptable")
  | JFloat _ => Raise (mkExn TypeError "'float' object is not subscriptable")
  end.

(** [float(v)]; [bool] is a subclass of [int]. *)
Definition float_ (v : json) : result float :=
  match v with
  | JFloat f => Ok f
  | JInt n => float_of_int n
  | JBool b => Ok (if b then 1%float else 0%float)
  | JStr s =>
      of_option (float_of_str s)
        (mkExn ValueError ("could not convert string to float: '" ++ s ++ "'"))
  | JNull | JList _ | JDict _ =>
      Raise (mkExn TypeError "float() argument must be a string or a real number")
  end.

(** A request to [/api/forecast]: [body_json] is what [json.loads] makes of
    the body, [None] when the body is not JSON text. *)
Record request : Type := mkRequest { body_json : option json }.

(** [request.get_json(force=True)]: the content type is not looked at, and
    a body that fails to decode raises [BadRequest]. *)
Definition get_json (req : request) : result json :=
  of_option (body_json req)
    (mkExn BadRequest
       "400 Bad Request: The browser (or proxy) sent a request that this server could not understand.").

Definition response : Type := Z * json.

(** [v[k1][k2]...] on a decoded body, [None] where a key is missing. *)
Fixpoint lookup_path (ks : list string) (v : json) : option json :=
  match ks with
  | [] => Some v
  | k :: ks' =>
      match v with
      | JDict kvs =>
          match dict_get k kvs with
          | Some v' => lookup_path ks' v'
          | None => None
          end
      | _ => None
      end
  end.

(** ** The remote service *)

Inductive HourlyParameters : Type :=
| TEMPERATURE_2M
| WIND_DIRECTION_10M
| WIND_SPEED_10M
| WIND_GUSTS_10M.

(** The arguments of [open_meteo.forecast]. *)
Record forecast_query : Type := mkQuery {
  latitude : float;
  longitude : float;
  current_weather : bool;
  wind_speed_unit : string;
  hourly_params : list HourlyParameters
}.

(** An element of [forecast.hourly.time]: a [datetime], or another value,
    kept as the text [str(t)]. *)
Inductive raw_time : Type :=
| TDatetime (d : datetime)
| TOther (s : string).

Record HourlyForecast : Type := mkHourly {
  time : list raw_time;
  wind_direction_10m : list Z;
  wind_speed_10m : list float;
  wind_gusts_10m : list float
}.

Record Forecast : Type := mkForecast { hourly : HourlyForecast }.

(** How the service answers: after how many seconds ([None]: never) and
    with what. *)
Record reply : Type := mkReply {
  answered_after : option Q;
  answer : result Forecast
}.

(** What is seen of the outside: the call of [fetch_openmeteo] and the
    call of the client. *)
Inductive event : Type :=
| Fetch (lat lon : float) (hours : Z)
| Remote (q : forecast_query).

(** A coroutine once scheduled: what it does, after how many seconds it
    completes ([None]: never) and how. *)
Record coroutine (A : Type) : Type := mkCoroutine {
  effects : list event;
  latency : option Q;
  outcome : result A
}.

Arguments mkCoroutine {A} effects latency outcome.
Arguments effects {A} c.
Arguments latency {A} c.
Arguments outcome {A} c.

(** The value returned by [fetch_openmeteo]. *)
Record series : Type := mkSeries {
  time_dt : list datetime;
  wind_dir : list Z;
  wind_speed : list float;
  wind_gust : list float
}.

(** ** The figure *)

(** [t + timedelta(microseconds=shift)], kept as the two operands. *)
Record shifted : Type := mkShifted { base : datetime; shift_us : Z }.

Definition datetime_min : datetime := mkDatetime 1 1 1 0 0 0 0 None.

Definition datetime_max : datetime := mkDatetime 9999 12 31 23 59 59 999999 None.

(** [d + timedelta(microseconds=us)]: the civil fields are moved, whatever
    the [tzinfo], and a result before [datetime.min] or after
    [datetime.max] raises [OverflowError]. *)
Definition add_timedelta (d : datetime) (us : Z) : result shifted :=
  let t := civil_us d + us in
  if (civil_us datetime_min <=? t) && (t <=? civil_us datetime_max)
  then Ok (mkShifted d us)
  else Raise (mkExn OverflowError "date value out of range").

(** The figure that [render_png] saves. *)
Record chart : Type := mkChart {
  figsize : float * float;
  height_ratios : list float;
  cmap : string;
  norm : float * float;
  bar_x : list datetime;
  bar_height : list float;
  bar_yerr : list Z * list float;
  bar_ecolor : list float;
  bar_color : list float;
  bar_width : float;
  ylim : float * float;
  ylabel : string;
  xlim : shifted * shifted;
  tick_format : string;
  table_text : list (list Z);
  table_rows : list string;
  dpi : Z
}.

(** [ax.set_ylim(bottom, top)] takes finite limits only. *)
Definition set_ylim (bottom top : float) : result (float * float) :=
  if is_finite bottom && is_finite top then Ok (bottom, top)
  else Raise (mkExn ValueError "Axis limits cannot be NaN or Inf").

(** What is left to Matplotlib.  [ax_bar] is the call of [ax.bar] with the
    positions, the heights, the two error arrays and the colours: the
    library checks their shapes and units.  [savefig] is the rest of the
    function once every argument is computed, from [ax.set_xlim] to
    [fig.savefig]: the limits, the locator, the colour bar, the table, the
    layout, the drawing and the writing of the file at the given path.
    Either one may raise. *)
Record matplotlib : Type := mkMatplotlib {
  ax_bar : list datetime -> list float -> list Z * list float ->
           list float -> list float -> result unit;
  savefig : chart -> string -> result unit
}.

Definition files : Type := string -> option chart.

Definition write_file (fs : files) (path : string) (c : chart) : files :=
  fun p => if String.eqb p path then Some c else fs p.

(** * The program *)

Section Program.

(** [datetime.fromisoformat] of the running Python. *)
Variable fromisoformat : string -> option datetime.

(** The offset of the local zone at the epoch, in seconds east of UTC. *)
Variable local_utcoffset : Z.

(** [open_meteo.forecast]: how the service answers a query. *)
Variable open_meteo_forecast : forecast_query -> reply.

(** The body of the loop at lines 48-55. *)
Definition normalize_time (t : raw_time) : datetime :=
  match t with
  | TDatetime d => d
  | TOther s =>
      match fromisoformat (str_replace "Z" "+00:00" s) with
      | Some d => d
      | None => fromtimestamp0 local_utcoffset
      end
  end.

(** The loop: [times_dt] grows by one element for each [t]. *)
Definition normalize_times (hourly_time : list raw_time) : list datetime :=
  fold_left (fun times_dt t => times_dt ++ [normalize_time t])%list
    hourly_time [].

(** Lines 40-62, once the forecast is there; [int(hours)] leaves an [int]
    as it is. *)
Definition shape_series (forecast : Forecast) (hours : Z) : series :=
  let nhours := Z.max 1 hours in
  let hourly_time := slice_to nhours (time (hourly forecast)) in
  let wind_dir := slice_to nhours (wind_direction_10m (hourly forecast)) in
  let wind_speed := slice_to nhours (wind_speed_10m (hourly forecast)) in
  let wind_gusts := slice_to nhours (wind_gusts_10m (hourly forecast)) in
  let times_dt := normalize_times hourly_time in
  mkSeries times_dt wind_dir wind_speed wind_gusts.

(** [fetch_openmeteo(lat, lon, hours)]; the handler always passes [hours]. *)
Definition fetch_openmeteo (lat lon : float) (hours : Z) : coroutine series :=
  let q := mkQuery lat lon false "kn"
             [TEMPERATURE_2M; WIND_DIRECTION_10M; WIND_SPEED_10M; WIND_GUSTS_10M] in
  let call := open_meteo_forecast q in
  mkCoroutine
    [Fetch lat lon hours; Remote q]
    (answered_after call)
    (forecast <- answer call ;; Ok (shape_series forecast hours)).

(** [_LoopRunner.run]: the coroutine is handed to the loop and the caller
    waits for [fut.result(timeout=timeout)].  [None] is a caller that waits
    for ever. *)
Definition run {A : Type} (coro : coroutine A) (timeout : option Q)
  : option (result A * list event) :=
  match latency coro, timeout with
  | Some d, Some t =>
      if Qle_bool d t then Some (outcome coro, effects coro)
      else Some (Raise (mkExn TimeoutError EmptyString), effects coro)
  | Some d, None => Some (outcome coro, effects coro)
  | None, Some t => Some (Raise (mkExn TimeoutError EmptyString), effects coro)
  | None, None => None
  end.

Definition invalid_payload : response :=
  (400, JDict [("error", JStr "Invalid payload. Provide lat, lon, optional hours.")]).

(** The first [try] block of [api_forecast]. *)
Definition read_payload (req : request) : result (float * float * Z) :=
  payload <- get_json req ;;
  lat_v <- getitem payload "lat" ;;
  lat <- float_ lat_v ;;
  lon_v <- getitem payload "lon" ;;
  lon <- float_ lon_v ;;
  let hours := 120 in
  Ok (lat, lon, hours).

Definition forecast_body (lat lon : float) (hours : Z) (s : series) : json :=
  let times_iso := map isoformat (time_dt s) in
  JDict [("time", JList (map JStr times_iso));
         ("wind_dir", JList (map JInt (wind_dir s)));
         ("wind_speed", JList (map JFloat (wind_speed s)));
         ("wind_gust", JList (map JFloat (wind_gust s)));
         ("meta", JDict [("lat", JFloat lat); ("lon", JFloat lon);
                         ("hours", JInt hours); ("unit", JStr "knots")])].

Definition fetch_failed (e : exn) : response :=
  (500, JDict [("error", JStr ("Forecast fetch failed: " ++ exn_text e))]).

(** The handler: the response and what was done to produce it; [None] if
    the handler never returns. *)
Definition api_forecast (req : request) : option (response * list event) :=
  match read_payload req with
  | Raise _ => Some (invalid_payload, [])
  | Ok (lat, lon, hours) =>
      match run (fetch_openmeteo lat lon hours) (Some (30 # 1)) with
      | Some (Ok s, done) => Some ((200, forecast_body lat lon hours s), done)
      | Some (Raise e, done) => Some (fetch_failed e, done)
      | None => None
      end
  end.

End Program.

(** [render_png]: the files after the figure is saved at [out_path].  The
    reductions, the subtraction, the colour scale, the y-limits, the
    indexing and the half hours are evaluated as NumPy, Matplotlib and
    Python do, in the order of the source; [ax.bar] and the calls from
    [ax.set_xlim] on are [mpl]'s, with their arguments, colours as
    positions on the colour map.  An exception of any step ends the call
    and nothing is saved. *)
Definition render_png (mpl : matplotlib) (s : series) (out_path : string)
  (fs : files) : result files :=
  let wind_speed := wind_speed s in
  let wind_gusts := wind_gust s in
  let wind_dir := wind_dir s in
  let hourly_time := time_dt s in
  vmin <- np_min wind_speed ;;
  vmax <- np_max wind_gusts ;;
  let gust_nerr := repeat 0 (List.length wind_speed) in
  pairs <- broadcast wind_gusts wind_speed ;;
  let gust_perr := map (fun p => abs (fst p - snd p))%float pairs in
  ecolor <- normalize_values vmin vmax wind_gusts ;;
  color <- normalize_values vmin vmax wind_speed ;;
  _ <- ax_bar mpl hourly_time wind_speed (gust_nerr, gust_perr) ecolor color ;;
  top <- np_max wind_gusts ;;
  limits <- set_ylim 0 (top + 3) ;;
  first <- item_first hourly_time ;;
  left <- add_timedelta first (- 1800000000) ;;
  last <- item_last hourly_time ;;
  right <- add_timedelta last 1800000000 ;;
  let fig :=
    mkChart (16, 4.2)%float [3.7; 0.5]%float "viridis_r" (vmin, vmax)
      hourly_time wind_speed (gust_nerr, gust_perr) ecolor color
      0.02%float limits "Knots" (left, right)
      "%a %H" [wind_dir] ["Wind Dir (°)"] 150 in
  _ <- savefig mpl fig out_path ;;
  Ok (write_file fs out_path fig).

(** * The normalization as the specification words it

    Only a final ["Z"] stands for a zero offset; everything else is as in
    [normalize_time]. *)

Definition trailing_Z_as_offset (s : string) : string :=
  match rev (chars s) with
  | c :: r => if (c =? "Z")%char then text (rev r) ++ "+00:00" else s
  | [] => s
  end.

Definition normalize_time_trailing_Z
  (fromisoformat : string -> option datetime) (local_utcoffset : Z)
  (t : raw_time) : datetime :=
  match t with
  | TDatetime d => d
  | TOther s =>
      match fromisoformat (trailing_Z_as_offset s) with
      | Some d => d
      | None => fromtimestamp0 local_utcoffset
      end
  end.

(** The characters of [s] with each ["Z"] replaced by [new]. *)
Definition each_Z_replaced (new : string) (s : string) : list ascii :=
  flat_map (fun c => if (c =? "Z")%char then chars new else [c]) (chars s).

(** No ["Z"] in [s], except possibly as its last character. *)
Definition Z_only_trailing (s : string) : bool :=
  match rev (chars s) with
  | _ :: r => forallb (fun c => negb (c =? "Z")%char) r
  | [] => true
  end.

(** * Inputs of the examples *)

Definition midnight (d : Z) (h : Z) : datetime :=
  mkDatetime 2024 1 d h 0 0 0 None.

Definition sample_hourly : HourlyForecast :=
  mkHourly
    [TDatetime (midnight 1 0); TOther "2024-01-01T01:00:00";
     TOther "2024-01-01T02:00:00"]
    [180; 190; 200]
    [10; 11; 12]%float
    [15; 16; 17]%float.

(** A service that answers in half a second. *)
Definition sample_service (q : forecast_query) : reply :=
  mkReply (Some (1 # 2)) (Ok (mkForecast sample_hourly)).

(** A service that answers after the handler has given up. *)
Definition slow_service (q : forecast_query) : reply :=
  mkReply (Some (45 # 1)) (Ok (mkForecast sample_hourly)).

Definition connection_error : exn :=
  mkExn (OtherError "OpenMeteoConnectionError")
    "Error occurred while communicating with Open-Meteo API".

Definition failing_service (q : forecast_query) : reply :=
  mkReply (Some (1 # 1)) (Raise connection_error).

(** Arrays of different lengths. *)
Definition ragged_service (q : forecast_query) : reply :=
  mkReply (Some (1 # 2))
    (Ok (mkForecast
           (mkHourly [TDatetime (midnight 1 0); TDatetime (midnight 1 1)]
              [180] [10; 11]%float [15; 16]%float))).

(** Three hours in order, the second in a form that no version of
    [fromisoformat] reads. *)
Definition garbled_service (q : forecast_query) : reply :=
  mkReply (Some (1 # 2))
    (Ok (mkForecast
           (mkHourly [TOther "2024-01-01T00:00:00"; TOther "2024-01-01T01:00:00 UTC";
                      TOther "2024-01-01T02:00:00"]
              [180; 190; 200] [10; 11; 12]%float [15; 16; 17]%float))).

Definition sample_payload (extra : list (string * json)) : request :=
  mkRequest (Some (JDict ([("lat", JFloat 41.5); ("lon", JStr "-71.25")] ++ extra)%list)).

Definition sample_events : list event :=
  [Fetch 41.5 (-71.25) 120;
   Remote (mkQuery 41.5 (-71.25) false "kn"
             [TEMPERATURE_2M; WIND_DIRECTION_10M; WIND_SPEED_10M; WIND_GUSTS_10M])]%float.

(** The body that [sample_service] earns for [sample_payload]. *)
Definition sample_body : json :=
  JDict [("time", JList [JStr "2024-01-01T00:00:00"; JStr "2024-01-01T01:00:00";
                         JStr "2024-01-01T02:00:00"]);
         ("wind_dir", JList [JInt 180; JInt 190; JInt 200]);
         ("wind_speed", JList [JFloat 10; JFloat 11; JFloat 12]);
         ("wind_gust", JList [JFloat 15; JFloat 16; JFloat 17]);
         ("meta", JDict [("lat", JFloat 41.5); ("lon", JFloat (-71.25));
                         ("hours", JInt 120); ("unit", JStr "knots")])].

Definition bad_request_body : json :=
  JDict [("error", JStr "Invalid payload. Provide lat, lon, optional hours.")].

Definition one_point : series :=
  mkSeries [midnight 1 0] [180] [10]%float [15]%float.

Definition three_points : series :=
  mkSeries [midnight 1 0; midnight 1 1; midnight 1 2] [180; 190; 200]
    [12; 10; 11]%float [15; 17; 16]%float.

(** The figure of one point with speed 10 and gust 15. *)
Definition one_point_chart (t : datetime) (dir : Z) : chart :=
  mkChart (16, 4.2)%float [3.7; 0.5]%float "viridis_r" (10, 15)%float
    [t] [10]%float ([0], [5]%float) [1]%float [0]%float
    0.02%float (0, 18)%float "Knots"
    (mkShifted t (- 1800000000), mkShifted t 1800000000)
    "%a %H" [[dir]] ["Wind Dir (°)"] 150.

Definition no_files : files := fun _ => None.

(** A Matplotlib that draws and saves whatever it is given. *)
Definition any_figure : matplotlib :=
  mkMatplotlib (fun _ _ _ _ _ => Ok tt) (fun _ _ => Ok tt).

(** A Matplotlib whose [ax.bar] takes positions and heights of one length
    only. *)
Definition strict_bar : matplotlib :=
  mkMatplotlib
    (fun x height _ _ _ =>
       if (List.length x =? List.length height)%nat then Ok tt
       else Raise (mkExn ValueError
                     "shape mismatch: objects cannot be broadcast to a single shape"))
    (fun _ _ => Ok tt).

(** * Facts about the runtime *)

Lemma bind_ok {A B : Type} (r : result A) (k : A -> result B) (b : B) :
  bind r k = Ok b -> exists a, r = Ok a /\ k a = Ok b.
Proof.
  destruct r as [a | e]; simpl; intros H; [exists a; auto | discriminate].
Qed.

Lemma bind_raise {A B : Type} (r : result A) (k : A -> result B) (e : exn) :
  r = Raise e -> bind r k = Raise e.
Proof. intros ->; reflexivity. Qed.

Lemma slice_to_firstn {A : Type} (n : Z) (xs : list A) :
  0 <= n -> slice_to n xs = firstn (Z.to_nat n) xs.
Proof.
  intros Hn. unfold slice_to.
  destruct (Z.ltb_spec n 0) as [H | H]; [lia | reflexivity].
Qed.

Lemma slice_to_length {A : Type} (n : Z) (xs : list A) :
  0 <= n -> List.length (slice_to n xs) = Nat.min (Z.to_nat n) (List.length xs).
Proof.
  intros Hn. rewrite slice_to_firstn by assumption. apply length_firstn.
Qed.

(** The model of the runtime on texts and numbers for which CPython 3.11
    gives the same answers. *)

Example float_of_str_plain : float_of_str " -71.3125 " = Some (-71.3125)%float.
Proof. vm_compute. reflexivity. Qed.

Example float_of_str_rounds : float_of_str "9007199254740993" = Some 9007199254740992%float.
Proof. vm_compute. reflexivity. Qed.

Example float_of_str_grouped : float_of_str "1_000.5e-3" = Some 1.0005%float.
Proof. vm_compute. reflexivity. Qed.

Example float_of_str_overflow : float_of_str "1e400" = Some infinity.
Proof. vm_compute. reflexivity. Qed.

Example float_of_str_arabic_indic : float_of_str "١٢" = Some 12%float.
Proof. vm_compute. reflexivity. Qed.

Example float_of_str_fullwidth : float_of_str "１２.５" = Some 12.5%float.
Proof. vm_compute. reflexivity. Qed.

(** A no-break space is white space, a file separator before an ASCII
    number is not. *)
Example float_of_str_no_break_space :
  float_of_str (String (ascii_of_N 194) (String (ascii_of_N 160) "1.5 ")) =
  Some 1.5%float.
Proof. vm_compute. reflexivity. Qed.

Example float_of_str_file_separator :
  float_of_str (String (ascii_of_N 28) "1.5") = None.
Proof. vm_compute. reflexivity. Qed.

Example float_of_str_huge_exponent :
  float_of_str "-1e92171418" = Some neg_infinity.
Proof. vm_compute. reflexivity. Qed.

Example float_of_str_word : float_of_str "north" = None.
Proof. vm_compute. reflexivity. Qed.

Example float_of_int_large :
  float_of_int (10 ^ 400) =
  Raise (mkExn OverflowError "int too large to convert to float").
Proof. vm_compute. reflexivity. Qed.

Example isoformat_with_offset :
  isoformat (mkDatetime 2024 1 1 0 0 0 5 (Some (-30000007))) =
  "2024-01-01T00:00:00.000005-00:00:30.000007".
Proof. vm_compute. reflexivity. Qed.

Example isoformat_year_5 :
  isoformat (mkDatetime 5 1 2 3 4 5 0 None) = "0005-01-02T03:04:05".
Proof. vm_compute. reflexivity. Qed.

Example fromisoformat_strict_offset :
  fromisoformat_strict "2024-01-01T00:00:00+00:00" =
  Some (mkDatetime 2024 1 1 0 0 0 0 (Some 0)).
Proof. vm_compute. reflexivity. Qed.

Example fromisoformat_strict_any_separator :
  fromisoformat_strict "2024-01-01Z00:00:00" =
  Some (mkDatetime 2024 1 1 0 0 0 0 None).
Proof. vm_compute. reflexivity. Qed.

Example fromisoformat_strict_leap_day :
  fromisoformat_strict "2023-02-29" = None /\
  fromisoformat_strict "2024-02-29" = Some (mkDatetime 2024 2 29 0 0 0 0 None).
Proof. split; vm_compute; reflexivity. Qed.

Example fromtimestamp0_west :
  fromtimestamp0 (-18000) = mkDatetime 1969 12 31 19 0 0 0 None.
Proof. vm_compute. reflexivity. Qed.

(** * Facts about the program *)

Section Facts.

Variable fromisoformat : string -> option datetime.
Variable local_utcoffset : Z.
Variable open_meteo_forecast : forecast_query -> reply.

Local Notation normalize := (normalize_time fromisoformat local_utcoffset).
Local Notation shape := (shape_series fromisoformat local_utcoffset).
Local Notation fetch :=
  (fetch_openmeteo fromisoformat local_utcoffset open_meteo_forecast).
Local Notation handler :=
  (api_forecast fromisoformat local_utcoffset open_meteo_forecast).

Lemma read_payload_hours (req : request) (lat lon : float) (hours : Z) :
  read_payload req = Ok (lat, lon, hours) -> hours = 120.
Proof.
  unfold read_payload. intros H.
  repeat (apply bind_ok in H; destruct H as [? [_ H]]).
  inversion H; reflexivity.
Qed.

Lemma read_payload_dict (kvs : list (string * json)) :
  read_payload (mkRequest (Some (JDict kvs))) =
  (lat_v <- of_option (dict_get "lat" kvs) (mkExn KeyError "'lat'") ;;
   lat <- float_ lat_v ;;
   lon_v <- of_option (dict_get "lon" kvs) (mkExn KeyError "'lon'") ;;
   lon <- float_ lon_v ;;
   Ok (lat, lon, 120)).
Proof. reflexivity. Qed.

Lemma run_timeout_returns {A : Type} (c : coroutine A) (t : Q) :
  exists r, run c (Some t) = Some (r, effects c).
Proof.
  unfold run. destruct (latency c) as [d | ].
  - destruct (Qle_bool d t); eauto.
  - eauto.
Qed.

Lemma handler_invalid (req : request) (e : exn) :
  read_payload req = Raise e -> handler req = Some (invalid_payload, []).
Proof. unfold api_forecast. intros ->. reflexivity. Qed.

Lemma handler_valid (req : request) (lat lon : float) (hours : Z) :
  read_payload req = Ok (lat, lon, hours) ->
  handler req =
  match run (fetch lat lon 120) (Some (30 # 1)) with
  | Some (Ok s, done) => Some ((200, forecast_body lat lon 120 s), done)
  | Some (Raise e, done) => Some (fetch_failed e, done)
  | None => None
  end.
Proof.
  intros H. pose proof (read_payload_hours _ _ _ _ H) as ->.
  unfold api_forecast. rewrite H. reflexivity.
Qed.

Local Notation query lat lon :=
  (mkQuery lat lon false "kn"
     [TEMPERATURE_2M; WIND_DIRECTION_10M; WIND_SPEED_10M; WIND_GUSTS_10M]).

Lemma fetch_effects (lat lon : float) (hours : Z) :
  effects (fetch lat lon hours) = [Fetch lat lon hours; Remote (query lat lon)].
Proof. reflexivity. Qed.

Lemma read_payload_invalid (kvs : list (string * json)) :
  dict_get "lat" kvs = None \/
  (exists v e, dict_get "lat" kvs = Some v /\ float_ v = Raise e) \/
  (exists v e, dict_get "lon" kvs = Some v /\ float_ v = Raise e) ->
  exists e, read_payload (mkRequest (Some (JDict kvs))) = Raise e.
Proof.
  rewrite read_payload_dict.
  intros [H | [(v & e & H & Hf) | (v & e & H & Hf)]].
  - rewrite H. simpl. eauto.
  - rewrite H. simpl. rewrite Hf. simpl. eauto.
  - destruct (dict_get "lat" kvs) as [lat_v | ]; simpl; [ | eauto].
    destruct (float_ lat_v) as [lat | e']; simpl; [ | eauto].
    rewrite H. simpl. rewrite Hf. simpl. eauto.
Qed.

(** C10: a body that is not JSON text makes [get_json] raise [BadRequest]
    inside the first [try] block, so the handler answers 400 with the fixed
    message, as for a bad [lat] or [lon], and fetches nothing. *)
Theorem malformed_body_is_400 :
  (exists e, get_json (mkRequest None) = Raise e /\ exn_kind e = BadRequest) /\
  handler (mkRequest None) =
  Some ((400, JDict [("error",
                      JStr "Invalid payload. Provide lat, lon, optional hours.")]),
        []).
Proof.
  split.
  - eexists. split; reflexivity.
  - reflexivity.
Qed.



(** C6: once the payload is accepted, any exception [e] that comes out of
    the fetch, the [TimeoutError] of the 30-second wait included, is
    answered 500 with ["Forecast fetch failed: "] followed by [str(e)];
    the handler always returns. *)
Theorem fetch_failure_is_500 (req : request) (lat lon : float) (hours : Z) :
  read_payload req = Ok (lat, lon, hours) ->
  (forall (e : exn) (done : list event),
      run (fetch lat lon hours) (Some (30 # 1)) = Some (Raise e, done) ->
      handler req =
      Some ((500, JDict [("error",
                          JStr ("Forecast fetch failed: " ++ exn_text e))]),
            done)) /\
  (forall (d : Q) (e : exn),
      answered_after (open_meteo_forecast (query lat lon)) = Some d ->
      Qle_bool d (30 # 1) = true ->
      answer (open_meteo_forecast (query lat lon)) = Raise e ->
      handler req =
      Some ((500, JDict [("error",
                          JStr ("Forecast fetch failed: " ++ exn_text e))]),
            [Fetch lat lon 120; Remote (query lat lon)])) /\
  (answered_after (open_meteo_forecast (query lat lon)) = None \/
   (exists d : Q,
       answered_after (open_meteo_forecast (query lat lon)) = Some d /\
       Qle_bool d (30 # 1) = false) ->
   handler req =
   Some ((500, JDict [("error", JStr "Forecast fetch failed: ")]),
         [Fetch lat lon 120; Remote (query lat lon)])) /\
  handler req <> None.
Proof.
  intros H. pose proof (read_payload_hours _ _ _ _ H) as ->.
  rewrite (handler_valid req lat lon 120 H).
  repeat split.
  - intros e done Hrun. rewrite Hrun. reflexivity.
  - intros d e Hd Hle He. unfold run. simpl. rewrite Hd, Hle, He. reflexivity.
  - intros [Hn | (d & Hd & Hle)]; unfold run; simpl.
    + rewrite Hn. reflexivity.
    + rewrite Hd, Hle. reflexivity.
  - destruct (run_timeout_returns (fetch lat lon 120) (30 # 1)) as [r Hr].
    rewrite Hr. destruct r; discriminate.
Qed.

Lemma fold_append_map {A B : Type} (f : A -> B) (l : list A) (acc : list B) :
  fold_left (fun out x => out ++ [f x])%list l acc = (acc ++ map f l)%list.
Proof.
  revert acc. induction l as [ | x l IH]; intros acc; simpl.
  - now rewrite app_nil_r.
  - rewrite IH, <- app_assoc. reflexivity.
Qed.

Lemma normalize_times_map (l : list raw_time) :
  normalize_times fromisoformat local_utcoffset l = map normalize l.
Proof. unfold normalize_times. now rewrite fold_append_map. Qed.

Lemma shape_series_fields (f : Forecast) (hours : Z) :
  let n := Z.to_nat (Z.max 1 hours) in
  time_dt (shape f hours) = map normalize (firstn n (time (hourly f))) /\
  wind_dir (shape f hours) = firstn n (wind_direction_10m (hourly f)) /\
  wind_speed (shape f hours) = firstn n (wind_speed_10m (hourly f)) /\
  wind_gust (shape f hours) = firstn n (wind_gusts_10m (hourly f)).
Proof.
  intros n. unfold shape_series. simpl.
  rewrite normalize_times_map, !slice_to_firstn by lia. auto.
Qed.

Lemma map_normalize_datetimes (l : list raw_time) :
  Forall (fun t => exists d, t = TDatetime d) l ->
  map TDatetime (map normalize l) = l.
Proof.
  induction 1 as [ | t l [d ->] _ IH]; simpl; [reflexivity | now rewrite IH].
Qed.

(** C7: with [n = max(1, hours)], the fetch returns the first [n] elements
    of each remote array, the timestamps normalized one by one, or the whole
    array when it has no more than [n] elements; nothing is padded and
    short data raises nothing. *)
Theorem fetch_truncates_to_horizon (lat lon : float) (hours : Z) (f : Forecast) :
  let n := Z.to_nat (Z.max 1 hours) in
  let s := shape f hours in
  (answer (open_meteo_forecast (query lat lon)) = Ok f ->
   outcome (fetch lat lon hours) = Ok s) /\
  (1 <= n)%nat /\
  (time_dt s = map normalize (firstn n (time (hourly f))) /\
   wind_dir s = firstn n (wind_direction_10m (hourly f)) /\
   wind_speed s = firstn n (wind_speed_10m (hourly f)) /\
   wind_gust s = firstn n (wind_gusts_10m (hourly f))) /\
  (List.length (time_dt s) = Nat.min n (List.length (time (hourly f))) /\
   List.length (wind_dir s) = Nat.min n (List.length (wind_direction_10m (hourly f))) /\
   List.length (wind_speed s) = Nat.min n (List.length (wind_speed_10m (hourly f))) /\
   List.length (wind_gust s) = Nat.min n (List.length (wind_gusts_10m (hourly f)))) /\
  ((List.length (time (hourly f)) <= n)%nat ->
   time_dt s = map normalize (time (hourly f))) /\
  ((List.length (wind_direction_10m (hourly f)) <= n)%nat ->
   wind_dir s = wind_direction_10m (hourly f)) /\
  ((List.length (wind_speed_10m (hourly f)) <= n)%nat ->
   wind_speed s = wind_speed_10m (hourly f)) /\
  ((List.length (wind_gusts_10m (hourly f)) <= n)%nat ->
   wind_gust s = wind_gusts_10m (hourly f)) /\
  (Forall (fun t => exists d, t = TDatetime d) (time (hourly f)) ->
   map TDatetime (time_dt s) = firstn n (time (hourly f))).
Proof.
  intros n s.
  destruct (shape_series_fields f hours) as (Ht & Hd & Hs & Hg).
  fold n in Ht, Hd, Hs, Hg. fold s in Ht, Hd, Hs, Hg.
  split; [ | split; [ | split; [ | split]]].
  - intros Ha. simpl. rewrite Ha. reflexivity.
  - subst n. lia.
  - auto.
  - rewrite Ht, Hd, Hs, Hg, length_map, !length_firstn. auto.
  - repeat split.
    + intros Hl. rewrite Ht, firstn_all2 by exact Hl. reflexivity.
    + intros Hl. rewrite Hd. now apply firstn_all2.
    + intros Hl. rewrite Hs. now apply firstn_all2.
    + intros Hl. rewrite Hg. now apply firstn_all2.
    + intros Hall. rewrite Ht. apply map_normalize_datetimes.
      apply Forall_forall. intros t Hin.
      rewrite Forall_forall in Hall. apply Hall.
      rewrite <- (firstn_skipn n (time (hourly f))). apply in_or_app. now left.
Qed.

Lemma handler_200 (req : request) (body : json) (done : list event) :
  handler req = Some ((200, body), done) ->
  exists (lat lon : float) (f : Forecast),
    read_payload req = Ok (lat, lon, 120) /\
    answer (open_meteo_forecast (query lat lon)) = Ok f /\
    body = forecast_body lat lon 120 (shape f 120).
Proof.
  intros H. destruct (read_payload req) as [[[lat lon] hours] | e] eqn:Hread.
  - pose proof (read_payload_hours _ _ _ _ Hread) as ->.
    rewrite (handler_valid req lat lon 120 Hread) in H.
    exists lat, lon.
    destruct (run (fetch lat lon 120) (Some (30 # 1))) as [[[s | e] ev] | ] eqn:Hrun;
      try discriminate.
    inversion H; subst. clear H.
    unfold run in Hrun. simpl in Hrun.
    destruct (answered_after (open_meteo_forecast (query lat lon))) as [d | ];
      [ | discriminate].
    destruct (Qle_bool d (30 # 1)); [ | discriminate].
    destruct (answer (open_meteo_forecast (query lat lon))) as [f | e];
      simpl in Hrun; [ | discriminate].
    exists f. inversion Hrun. auto.
  - rewrite (handler_invalid req e Hread) in H. discriminate.
Qed.


End Facts.

(** * Facts about doubles *)

Lemma SFltb_trans (a b c : spec_float) :
  SFltb a b = true -> SFltb b c = true -> SFltb a c = true.
Proof.
  unfold SFltb, SFcompare.
  destruct a as [[] | [] | | [] ma ea], b as [[] | [] | | [] mb eb],
    c as [[] | [] | | [] mc ec];
    try discriminate; try reflexivity;
    change (Pos.compare_cont Eq) with Pos.compare;
    destruct (Z.compare_spec ea eb), (Z.compare_spec eb ec),
      (Z.compare_spec ea ec); try discriminate; try reflexivity; try lia;
    destruct (Pos.compare_spec ma mb), (Pos.compare_spec mb mc),
      (Pos.compare_spec ma mc); cbn [CompOpp];
    try discriminate; try reflexivity; lia.
Qed.

Lemma SFltb_irrefl (a : spec_float) : SFltb a a = false.
Proof.
  unfold SFltb, SFcompare.
  destruct a as [[] | [] | | [] m e]; try reflexivity;
    change (Pos.compare_cont Eq) with Pos.compare;
    now rewrite Z.compare_refl, Pos.compare_refl.
Qed.

Lemma ltb_trans (a b c : float) :
  (a <? b)%float = true -> (b <? c)%float = true -> (a <? c)%float = true.
Proof. rewrite !ltb_spec. apply SFltb_trans. Qed.

Lemma ltb_irrefl (a : float) : (a <? a)%float = false.
Proof. rewrite ltb_spec. apply SFltb_irrefl. Qed.

Lemma abs_not_negative (x : float) : (abs x <? 0)%float = false.
Proof.
  rewrite ltb_spec, abs_spec.
  change (Prim2SF 0) with (S754_zero false).
  now destruct (Prim2SF x) as [[] | [] | | [] m e].
Qed.

Lemma SFltb_between (a b c : spec_float) :
  b <> S754_nan -> SFltb a c = true -> SFltb a b = true \/ SFltb b c = true.
Proof.
  unfold SFltb, SFcompare.
  destruct a as [[] | [] | | [] ma ea], b as [[] | [] | | [] mb eb],
    c as [[] | [] | | [] mc ec]; intros Hb Hlt;
    try discriminate Hlt; try (now left); try (now right); try congruence;
    revert Hlt; change (Pos.compare_cont Eq) with Pos.compare;
    destruct (Z.compare_spec ea eb), (Z.compare_spec eb ec),
      (Z.compare_spec ea ec); intros Hlt;
    try discriminate Hlt; try (now left); try (now right); try lia;
    revert Hlt;
    destruct (Pos.compare_spec ma mb), (Pos.compare_spec mb mc),
      (Pos.compare_spec ma mc); cbn [CompOpp]; intros Hlt;
    try discriminate Hlt; try (now left); try (now right); lia.
Qed.

Lemma is_nan_spec (x : float) : is_nan x = false -> Prim2SF x <> S754_nan.
Proof.
  unfold is_nan. rewrite eqb_spec. intros H E. rewrite E in H. discriminate H.
Qed.

(** [<=] read as "not above" is transitive through a number. *)
Lemma ltb_below (a b c : float) :
  is_nan b = false ->
  (a <? b)%float = false -> (b <? c)%float = false -> (a <? c)%float = false.
Proof.
  intros Hb Hab Hbc. destruct (a <? c)%float eqn:E; [ | reflexivity].
  rewrite ltb_spec in *.
  destruct (SFltb_between _ (Prim2SF b) _ (is_nan_spec b Hb) E); congruence.
Qed.

Lemma np_maximum_fold (r : list float) (x : float) :
  is_nan x = false -> Forall (fun y => is_nan y = false) r ->
  let m := fold_left np_maximum r x in
  is_nan m = false /\ In m (x :: r) /\
  Forall (fun y => (m <? y)%float = false) (x :: r).
Proof.
  intros Hx Hr. revert x Hx.
  induction Hr as [ | y r Hy _ IH]; intros x Hx; cbn [fold_left].
  - split; [exact Hx | ]. split; [now left | ].
    apply Forall_cons; [apply ltb_irrefl | apply Forall_nil].
  - assert (Hm : is_nan (np_maximum x y) = false /\
                 (np_maximum x y = x \/ np_maximum x y = y) /\
                 (np_maximum x y <? x)%float = false /\
                 (np_maximum x y <? y)%float = false).
    { unfold np_maximum. rewrite Hx, Hy.
      destruct (x <? y)%float eqn:E.
      - repeat split; auto using ltb_irrefl.
        destruct (y <? x)%float eqn:E'; [ | reflexivity].
        pose proof (ltb_trans _ _ _ E E') as T. now rewrite ltb_irrefl in T.
      - repeat split; auto using ltb_irrefl. }
    destruct Hm as (Hn & Hsel & Hgx & Hgy).
    destruct (IH (np_maximum x y) Hn) as (Hn' & Hin & Hall).
    inversion Hall as [ | ? ? Hhead Htail]. subst.
    split; [exact Hn' | ]. split.
    + destruct Hin as [Hin | Hin]; [ | right; now right].
      rewrite <- Hin. destruct Hsel as [-> | ->]; [now left | right; now left].
    + apply Forall_cons; [ | apply Forall_cons; [ | exact Htail]].
      * exact (ltb_below _ _ _ Hn Hhead Hgx).
      * exact (ltb_below _ _ _ Hn Hhead Hgy).
Qed.

Lemma np_minimum_fold (r : list float) (x : float) :
  is_nan x = false -> Forall (fun y => is_nan y = false) r ->
  let m := fold_left np_minimum r x in
  is_nan m = false /\ In m (x :: r) /\
  Forall (fun y => (y <? m)%float = false) (x :: r).
Proof.
  intros Hx Hr. revert x Hx.
  induction Hr as [ | y r Hy _ IH]; intros x Hx; cbn [fold_left].
  - split; [exact Hx | ]. split; [now left | ].
    apply Forall_cons; [apply ltb_irrefl | apply Forall_nil].
  - assert (Hm : is_nan (np_minimum x y) = false /\
                 (np_minimum x y = x \/ np_minimum x y = y) /\
                 (x <? np_minimum x y)%float = false /\
                 (y <? np_minimum x y)%float = false).
    { unfold np_minimum. rewrite Hx, Hy.
      destruct (y <? x)%float eqn:E.
      - repeat split; auto using ltb_irrefl.
        destruct (x <? y)%float eqn:E'; [ | reflexivity].
        pose proof (ltb_trans _ _ _ E E') as T. now rewrite ltb_irrefl in T.
      - repeat split; auto using ltb_irrefl. }
    destruct Hm as (Hn & Hsel & Hgx & Hgy).
    destruct (IH (np_minimum x y) Hn) as (Hn' & Hin & Hall).
    inversion Hall as [ | ? ? Hhead Htail]. subst.
    split; [exact Hn' | ]. split.
    + destruct Hin as [Hin | Hin]; [ | right; now right].
      rewrite <- Hin. destruct Hsel as [-> | ->]; [now left | right; now left].
    + apply Forall_cons; [ | apply Forall_cons; [ | exact Htail]].
      * exact (ltb_below _ _ _ Hn Hgx Hhead).
      * exact (ltb_below _ _ _ Hn Hgy Hhead).
Qed.

Lemma SFltb_not_eqb (a b : spec_float) : SFltb a b = true -> SFeqb b a = false.
Proof.
  unfold SFltb, SFeqb, SFcompare.
  destruct a as [[] | [] | | [] ma ea], b as [[] | [] | | [] mb eb];
    try discriminate; try reflexivity;
    change (Pos.compare_cont Eq) with Pos.compare;
    destruct (Z.compare_spec ea eb), (Z.compare_spec eb ea);
    try discriminate; try reflexivity; try lia;
    destruct (Pos.compare_spec ma mb), (Pos.compare_spec mb ma); cbn [CompOpp];
    try discriminate; try reflexivity; lia.
Qed.

Lemma ltb_not_eqb (a b : float) :
  (a <? b)%float = true -> (b =? a)%float = false.
Proof. rewrite ltb_spec, eqb_spec. apply SFltb_not_eqb. Qed.

Lemma SFeqb_refl (a : spec_float) : a <> S754_nan -> SFeqb a a = true.
Proof.
  unfold SFeqb, SFcompare.
  destruct a as [[] | [] | | [] m e]; intros H; try reflexivity;
    try congruence;
    change (Pos.compare_cont Eq) with Pos.compare;
    now rewrite Z.compare_refl, Pos.compare_refl.
Qed.

Lemma is_nan_true (x : float) : is_nan x = true -> Prim2SF x = S754_nan.
Proof.
  unfold is_nan. rewrite eqb_spec. intros H.
  destruct (Prim2SF x) as [s | s | | s m e] eqn:E; try reflexivity;
    rewrite SFeqb_refl in H by discriminate; discriminate H.
Qed.

(** A sum with NaN is NaN. *)
Lemma add_not_nan (x y : float) :
  is_nan (x + y)%float = false -> is_nan x = false.
Proof.
  intros H. destruct (is_nan x) eqn:E; [ | reflexivity].
  apply is_nan_true in E. unfold is_nan in H.
  rewrite eqb_spec, add_spec, E in H. discriminate H.
Qed.

Lemma is_finite_not_nan (x : float) : is_finite x = true -> is_nan x = false.
Proof.
  unfold is_finite. intros H. apply negb_true_iff, orb_false_iff in H.
  apply H.
Qed.

(** A maximum that is a number was taken over numbers. *)
Lemma np_maximum_fold_numbers (r : list float) (x : float) :
  is_nan (fold_left np_maximum r x) = false ->
  is_nan x = false /\ Forall (fun y => is_nan y = false) r.
Proof.
  revert x. induction r as [ | y r IH]; intros x H; cbn [fold_left] in H.
  - split; [exact H | apply Forall_nil].
  - destruct (IH _ H) as [Hm Hr]. unfold np_maximum in Hm.
    destruct (is_nan x) eqn:Ex; [congruence | ].
    destruct (is_nan y) eqn:Ey; [congruence | ].
    split; [reflexivity | apply Forall_cons; assumption].
Qed.

(** * Facts about the renderer *)

Lemma broadcast_same_length {A B : Type} (a : list A) (b : list B) :
  List.length a = List.length b -> exists p, broadcast a b = Ok p.
Proof.
  intros H. unfold broadcast.
  destruct a as [ | x [ | x' a']]; destruct b as [ | y [ | y' b']];
    try discriminate; simpl; eauto.
  simpl in H. injection H as H. rewrite H, Nat.eqb_refl. eauto.
Qed.

Lemma item_last_nonempty {A : Type} (xs : list A) :
  xs <> [] -> exists x, item_last xs = Ok x.
Proof.
  intros H. unfold item_last. destruct (rev xs) as [ | x r] eqn:E.
  - apply (f_equal (@rev A)) in E. rewrite rev_involutive in E. now subst.
  - simpl. eauto.
Qed.

Lemma broadcast_error {A B : Type} (a : list A) (b : list B) (e : exn) :
  broadcast a b = Raise e ->
  e = mkExn ValueError "operands could not be broadcast together".
Proof.
  unfold broadcast.
  destruct a as [ | x [ | x' a']]; destruct b as [ | y [ | y' b']];
    simpl; try discriminate;
    try (destruct (_ =? _)%nat; try discriminate); now inversion 1.
Qed.

Lemma normalize_values_error (vmin vmax : float) (values : list float) (e : exn) :
  normalize_values vmin vmax values = Raise e ->
  e = mkExn ValueError "minvalue must be less than or equal to maxvalue".
Proof.
  unfold normalize_values.
  destruct (vmin =? vmax)%float; [discriminate | ].
  destruct (vmax <? vmin)%float; [ | discriminate]. now inversion 1.
Qed.

Lemma item_error {A : Type} (o : option A) (e : exn) :
  of_option o index_error = Raise e -> e = index_error.
Proof. destruct o; simpl; [discriminate | now inversion 1]. Qed.

Lemma not_zero_size {A : Type} (e : exn) (op : string) :
  exn_kind e <> ValueError \/
  String.get 0 (exn_text e) <> Some "z"%char ->
  @Raise A e <> Raise (zero_size op).
Proof.
  intros H E. inversion E. subst e. destruct H as [H | H]; apply H; reflexivity.
Qed.

Lemma write_file_same (fs : files) (path : string) (c : chart) :
  write_file fs path c path = Some c.
Proof. unfold write_file. now rewrite String.eqb_refl. Qed.

Lemma broadcast_combine {A B : Type} (a : list A) (b : list B) :
  List.length a = List.length b -> broadcast a b = Ok (combine a b).
Proof.
  intros H. unfold broadcast.
  destruct a as [ | x [ | x' a']]; destruct b as [ | y [ | y' b']];
    try discriminate H; try reflexivity.
  now rewrite H, Nat.eqb_refl.
Qed.

Lemma broadcast_mismatch {A B : Type} (a : list A) (b : list B) :
  List.length a <> List.length b ->
  List.length a <> 1%nat -> List.length b <> 1%nat ->
  broadcast a b = Raise (mkExn ValueError "operands could not be broadcast together").
Proof.
  intros H Ha Hb. unfold broadcast.
  apply Nat.eqb_neq in H.
  destruct a as [ | x [ | x' a']]; destruct b as [ | y [ | y' b']];
    try (now rewrite H); try (cbn in Ha; lia); cbn in Hb; lia.
Qed.

Lemma set_ylim_ok (bottom top : float) (limits : float * float) :
  set_ylim bottom top = Ok limits ->
  limits = (bottom, top) /\ is_finite top = true.
Proof.
  unfold set_ylim. destruct (is_finite bottom); [ | discriminate].
  destruct (is_finite top); [ | discriminate].
  intros H. inversion H. auto.
Qed.

Lemma add_timedelta_ok (d : datetime) (us : Z) (r : shifted) :
  add_timedelta d us = Ok r -> r = mkShifted d us.
Proof.
  unfold add_timedelta. destruct (_ && _); [ | discriminate].
  intros H. now inversion H.
Qed.

Lemma add_timedelta_in_range (d : datetime) (us : Z) :
  civil_us datetime_min <= civil_us d + us <= civil_us datetime_max ->
  add_timedelta d us = Ok (mkShifted d us).
Proof.
  intros [H1 H2]. unfold add_timedelta.
  apply Z.leb_le in H1, H2. now rewrite H1, H2.
Qed.

Lemma item_first_in {A : Type} (xs : list A) (x : A) :
  item_first xs = Ok x -> In x xs.
Proof.
  destruct xs as [ | y r]; [discriminate | ].
  intros H. inversion H. now left.
Qed.

Lemma item_last_in {A : Type} (xs : list A) (x : A) :
  item_last xs = Ok x -> In x xs.
Proof.
  unfold item_last. intros H. apply in_rev.
  destruct (rev xs) as [ | y r]; [discriminate | ].
  inversion H. now left.
Qed.

Lemma normalize_values_ok (vmin vmax : float) (values : list float) :
  (vmax <? vmin)%float = false ->
  exists out, normalize_values vmin vmax values = Ok out.
Proof.
  intros H. unfold normalize_values. rewrite H.
  destruct (vmin =? vmax)%float; eauto.
Qed.

Section Renderer.

Variable mpl : matplotlib.

(** What a successful call has computed, passed on and saved. *)
Lemma render_png_chart (s : series) (path : string) (fs fs' : files) :
  render_png mpl s path fs = Ok fs' ->
  exists (vmin vmax : float) (pairs : list (float * float))
         (ecolor color : list float) (first last : datetime),
    np_min (wind_speed s) = Ok vmin /\
    np_max (wind_gust s) = Ok vmax /\
    broadcast (wind_gust s) (wind_speed s) = Ok pairs /\
    normalize_values vmin vmax (wind_gust s) = Ok ecolor /\
    normalize_values vmin vmax (wind_speed s) = Ok color /\
    is_finite (vmax + 3) = true /\
    item_first (time_dt s) = Ok first /\
    item_last (time_dt s) = Ok last /\
    fs' path =
    Some (mkChart (16, 4.2)%float [3.7; 0.5]%float "viridis_r" (vmin, vmax)
            (time_dt s) (wind_speed s)
            (repeat 0 (List.length (wind_speed s)),
             map (fun p => abs (fst p - snd p))%float pairs)
            ecolor color 0.02%float (0, vmax + 3)%float "Knots"
            (mkShifted first (- 1800000000), mkShifted last 1800000000)
            "%a %H" [wind_dir s] ["Wind Dir (°)"] 150).
Proof.
  unfold render_png. intros H.
  apply bind_ok in H. destruct H as (vmin & Hmin & H).
  apply bind_ok in H. destruct H as (vmax & Hmax & H).
  apply bind_ok in H. destruct H as (pairs & Hp & H).
  apply bind_ok in H. destruct H as (ecolor & He & H).
  apply bind_ok in H. destruct H as (color & Hc & H).
  apply bind_ok in H. destruct H as (accepted & _ & H).
  apply bind_ok in H. destruct H as (top & Htop & H).
  apply bind_ok in H. destruct H as (limits & Hy & H).
  apply bind_ok in H. destruct H as (first & Hf & H).
  apply bind_ok in H. destruct H as (left & Hleft & H).
  apply bind_ok in H. destruct H as (last & Hl & H).
  apply bind_ok in H. destruct H as (right & Hright & H).
  apply bind_ok in H. destruct H as (saved & _ & H).
  inversion H. subst fs'. clear H.
  rewrite Hmax in Htop. inversion Htop. subst top.
  apply set_ylim_ok in Hy. destruct Hy as [-> Hfin].
  apply add_timedelta_ok in Hleft, Hright. subst left right.
  exists vmin, vmax, pairs, ecolor, color, first, last.
  rewrite write_file_same. auto 10.
Qed.

(** What the program checks itself before a figure is saved: with these,
    only Matplotlib can still raise. *)
Lemma render_png_own_checks
  (s : series) (path : string) (fs : files) (vmin vmax : float) :
  np_min (wind_speed s) = Ok vmin ->
  np_max (wind_gust s) = Ok vmax ->
  List.length (wind_gust s) = List.length (wind_speed s) ->
  (vmax <? vmin)%float = false ->
  is_finite (vmax + 3) = true ->
  time_dt s <> [] ->
  Forall (fun d => civil_us datetime_min + 1800000000 <= civil_us d
                   <= civil_us datetime_max - 1800000000) (time_dt s) ->
  (exists fs', render_png mpl s path fs = Ok fs') \/
  (exists e, render_png mpl s path fs = Raise e /\
             ((exists x h y ec co, ax_bar mpl x h y ec co = Raise e) \/
              (exists c, savefig mpl c path = Raise e))).
Proof.
  intros Hmin Hmax Hl Hle Hfin Ht Hrange. unfold render_png.
  rewrite Hmin, Hmax. cbn [bind].
  rewrite (broadcast_combine _ _ Hl). cbn [bind].
  destruct (normalize_values_ok vmin vmax (wind_gust s) Hle) as [ec Hec].
  destruct (normalize_values_ok vmin vmax (wind_speed s) Hle) as [co Hco].
  rewrite Hec, Hco. cbn [bind].
  destruct (ax_bar mpl _ _ _ _ _) as [[] | e] eqn:Hbar; cbn [bind].
  2:{ right. exists e. split; [reflexivity | ]. left. eauto 10. }
  unfold set_ylim. rewrite Hfin.
  change (is_finite 0) with true. cbn [andb bind].
  destruct (item_last_nonempty (time_dt s) Ht) as [last Hlast].
  pose proof (item_last_in _ _ Hlast) as Hin.
  rewrite Forall_forall in Hrange.
  destruct (time_dt s) as [ | first ts] eqn:Et; [contradiction | ].
  cbn [item_first hd_error of_option bind].
  rewrite add_timedelta_in_range
    by (pose proof (Hrange first (or_introl eq_refl)); lia).
  cbn [bind]. rewrite Hlast. cbn [bind].
  rewrite add_timedelta_in_range by (pose proof (Hrange last Hin); lia).
  cbn [bind].
  destruct (savefig mpl _ path) as [[] | e] eqn:Hsave; cbn [bind].
  - left. eauto.
  - right. exists e. split; [reflexivity | ]. right. eauto.
Qed.



End Renderer.

(** * Facts about strings and timestamps *)

Lemma chars_append (s t : string) : chars (s ++ t) = (chars s ++ chars t)%list.
Proof. induction s as [ | c s IH]; simpl; [reflexivity | now rewrite IH]. Qed.

Lemma text_chars (s : string) : text (chars s) = s.
Proof. apply string_of_list_ascii_of_string. Qed.

Lemma chars_text (l : list ascii) : chars (text l) = l.
Proof. apply list_ascii_of_string_of_list_ascii. Qed.

Lemma chars_inj (s t : string) : chars s = chars t -> s = t.
Proof. intros H. rewrite <- (text_chars s), <- (text_chars t). now rewrite H. Qed.

Lemma prefix_one (c : ascii) (d : ascii) (s : string) :
  prefix (String c EmptyString) (String d s) = (d =? c)%char.
Proof.
  simpl. destruct (ascii_dec c d) as [-> | Hne].
  - rewrite Ascii.eqb_refl. now destruct s.
  - symmetry. apply Ascii.eqb_neq. congruence.
Qed.

(** [str.replace("Z", new)] rewrites each ["Z"], wherever it stands. *)
Lemma str_replace_each_Z (new s : string) :
  chars (str_replace "Z" new s) = each_Z_replaced new s.
Proof.
  unfold str_replace, each_Z_replaced.
  induction s as [ | c s IH]; [reflexivity | ].
  cbn [replace_from]. rewrite prefix_one.
  destruct (c =? "Z")%char eqn:E.
  - cbn [String.length Nat.sub]. rewrite chars_append, IH.
    cbn [chars list_ascii_of_string flat_map]. now rewrite E.
  - cbn [chars list_ascii_of_string flat_map]. rewrite E.
    cbn [app]. f_equal. exact IH.
Qed.

Lemma flat_map_no_Z (new : string) (l : list ascii) :
  forallb (fun c => negb (c =? "Z")%char) l = true ->
  flat_map (fun c => if (c =? "Z")%char then chars new else [c]) l = l.
Proof.
  induction l as [ | c l IH]; simpl; [reflexivity | ].
  intros H. apply andb_true_iff in H. destruct H as [Hc Hl].
  apply negb_true_iff in Hc. rewrite Hc. simpl. now rewrite IH.
Qed.

Lemma forallb_rev {A : Type} (p : A -> bool) (l : list A) :
  forallb p (rev l) = forallb p l.
Proof.
  induction l as [ | x l IH]; simpl; [reflexivity | ].
  rewrite forallb_app, IH. simpl. rewrite andb_true_r. apply andb_comm.
Qed.

(** When the only ["Z"] of a text is its last character, replacing every
    ["Z"] and replacing the trailing one are the same. *)
Lemma str_replace_trailing (s : string) :
  Z_only_trailing s = true ->
  str_replace "Z" "+00:00" s = trailing_Z_as_offset s.
Proof.
  intros H. apply chars_inj. rewrite str_replace_each_Z.
  unfold each_Z_replaced, trailing_Z_as_offset, Z_only_trailing in *.
  assert (E : chars s = rev (rev (chars s))) by now rewrite rev_involutive.
  destruct (rev (chars s)) as [ | c r].
  - rewrite E. reflexivity.
  - rewrite E at 1. cbn [rev]. rewrite flat_map_app.
    rewrite flat_map_no_Z by now rewrite forallb_rev.
    cbn [flat_map]. rewrite app_nil_r.
    destruct (c =? "Z")%char.
    + now rewrite chars_append, chars_text.
    + rewrite E. reflexivity.
Qed.

Lemma fromtimestamp0_is_epoch (local : Z) :
  -86400 < local < 86400 ->
  tzinfo (fromtimestamp0 local) = None /\
  valid_datetime (fromtimestamp0 local) = true /\
  timestamp_us local (fromtimestamp0 local) = 0.
Proof.
  intros Hr. unfold fromtimestamp0.
  destruct (Z.leb_spec 0 local) as [Hpos | Hneg].
  - assert (Hs : local mod 86400 = local) by (apply Z.mod_small; lia).
    rewrite Hs. split; [reflexivity | ]. split.
    + unfold valid_datetime.
      cbn [year month day hour minute second microsecond tzinfo].
      change (days_in_month 1970 1) with 31.
      repeat (apply andb_true_intro; split); try reflexivity;
        apply Z.leb_le; Z.div_mod_to_equations; lia.
    + unfold timestamp_us, civil_us.
      cbn [year month day hour minute second microsecond tzinfo].
      change (ymd2ord 1970 1 1) with 719163.
      Z.div_mod_to_equations. lia.
  - assert (Hs : local mod 86400 = local + 86400).
    { symmetry. apply (Z.mod_unique local 86400 (-1)); lia. }
    rewrite Hs. split; [reflexivity | ]. split.
    + unfold valid_datetime.
      cbn [year month day hour minute second microsecond tzinfo].
      change (days_in_month 1969 12) with 31.
      repeat (apply andb_true_intro; split); try reflexivity;
        apply Z.leb_le; Z.div_mod_to_equations; lia.
    + unfold timestamp_us, civil_us.
      cbn [year month day hour minute second microsecond tzinfo].
      change (ymd2ord 1969 12 31) with 719162.
      Z.div_mod_to_equations. lia.
Qed.

Section Timestamps.

Variable fromisoformat : string -> option datetime.
Variable local_utcoffset : Z.

Local Notation normalize := (normalize_time fromisoformat local_utcoffset).

(** C2, as the code has it: a [datetime] is kept; any other value is parsed
    from its text after every ["Z"], not only a final one, is replaced by
    ["+00:00"], which agrees with reading a final ["Z"] as a zero offset
    whenever the text has no other ["Z"]; a text that does not parse gives
    [datetime.fromtimestamp(0)], the epoch as a naive local time. *)
Theorem normalize_time_replaces_every_Z :
  (forall d : datetime, normalize (TDatetime d) = d) /\
  (forall s : string,
      normalize (TOther s) =
      match fromisoformat (text (each_Z_replaced "+00:00" s)) with
      | Some d => d
      | None => fromtimestamp0 local_utcoffset
      end) /\
  (forall t : raw_time,
      (forall s, t = TOther s -> Z_only_trailing s = true) ->
      normalize t = normalize_time_trailing_Z fromisoformat local_utcoffset t) /\
  (forall d : datetime,
      fromisoformat "2024-01-01T00:00:00+00:00" = Some d ->
      normalize (TOther "2024-01-01T00:00:00Z") = d) /\
  (forall s : string,
      fromisoformat (str_replace "Z" "+00:00" s) = None ->
      normalize (TOther s) = fromtimestamp0 local_utcoffset) /\
  (-86400 < local_utcoffset < 86400 ->
   tzinfo (fromtimestamp0 local_utcoffset) = None /\
   valid_datetime (fromtimestamp0 local_utcoffset) = true /\
   timestamp_us local_utcoffset (fromtimestamp0 local_utcoffset) = 0).
Proof.
  repeat split.
  - intros s. unfold normalize_time.
    now rewrite <- str_replace_each_Z, text_chars.
  - intros [d | s] H; [reflexivity | ].
    unfold normalize_time, normalize_time_trailing_Z.
    now rewrite str_replace_trailing by now apply H.
  - intros d H. unfold normalize_time.
    change (str_replace "Z" "+00:00" "2024-01-01T00:00:00Z")
      with "2024-01-01T00:00:00+00:00".
    now rewrite H.
  - intros s H. unfold normalize_time. now rewrite H.
  - apply fromtimestamp0_is_epoch; assumption.
  - apply fromtimestamp0_is_epoch; assumption.
  - apply fromtimestamp0_is_epoch; assumption.
Qed.

End Timestamps.

(** * The order of ISO 8601 texts *)

Lemma append_assoc (a b c : string) : (a ++ b) ++ c = a ++ (b ++ c).
Proof. induction a as [ | x a IH]; simpl; [reflexivity | now rewrite IH]. Qed.

Lemma append_length (a b : string) :
  String.length (a ++ b) = (String.length a + String.length b)%nat.
Proof. induction a as [ | x a IH]; simpl; [reflexivity | now rewrite IH]. Qed.

Lemma ascii_compare_refl (c : ascii) : Ascii.compare c c = Eq.
Proof. apply N.compare_refl. Qed.

Lemma compare_refl (s : string) : String.compare s s = Eq.
Proof.
  induction s as [ | c s IH]; simpl; [reflexivity | ].
  now rewrite ascii_compare_refl.
Qed.

(** Two texts that begin with parts of one length are ordered by these
    parts, then by what follows. *)
Lemma compare_append (s1 s2 t1 t2 : string) :
  String.length s1 = String.length s2 ->
  String.compare (s1 ++ t1) (s2 ++ t2) =
  match String.compare s1 s2 with
  | Eq => String.compare t1 t2
  | c => c
  end.
Proof.
  revert s2. induction s1 as [ | c1 s1 IH]; intros [ | c2 s2] H;
    try discriminate; simpl; [reflexivity | ].
  destruct (Ascii.compare c1 c2); try reflexivity.
  apply IH. now injection H.
Qed.

Lemma fixed_length (k : nat) (n : Z) : String.length (fixed k n) = k.
Proof.
  revert n. induction k as [ | k IH]; intros n; simpl; [reflexivity | ].
  rewrite append_length, IH. simpl. lia.
Qed.

Lemma digit_char_compare (x y : Z) :
  0 <= x < 10 -> 0 <= y < 10 ->
  Ascii.compare (digit_char x) (digit_char y) = (x ?= y).
Proof.
  intros Hx Hy. unfold Ascii.compare, digit_char.
  rewrite !N_ascii_embedding by lia.
  rewrite Z2N.inj_compare by lia.
  apply Z.add_compare_mono_l.
Qed.

Lemma compare_by_digits (a b : Z) :
  (a ?= b) =
  match a / 10 ?= b / 10 with
  | Eq => a mod 10 ?= b mod 10
  | c => c
  end.
Proof.
  destruct (Z.compare_spec (a / 10) (b / 10)) as [H | H | H].
  - destruct (Z.compare_spec (a mod 10) (b mod 10)) as [H' | H' | H'].
    + apply Z.compare_eq_iff. Z.div_mod_to_equations. lia.
    + apply Z.compare_lt_iff. Z.div_mod_to_equations. lia.
    + apply Z.compare_gt_iff. Z.div_mod_to_equations. lia.
  - apply Z.compare_lt_iff. Z.div_mod_to_equations. lia.
  - apply Z.compare_gt_iff. Z.div_mod_to_equations. lia.
Qed.

(** Numbers written with [k] digits are ordered as their texts are. *)
Lemma fixed_compare (k : nat) (a b : Z) :
  0 <= a < 10 ^ Z.of_nat k -> 0 <= b < 10 ^ Z.of_nat k ->
  String.compare (fixed k a) (fixed k b) = (a ?= b).
Proof.
  revert a b. induction k as [ | k IH]; intros a b Ha Hb.
  - simpl in *. symmetry. apply Z.compare_eq_iff. lia.
  - rewrite Nat2Z.inj_succ, Z.pow_succ_r in Ha, Hb by lia.
    cbn [fixed]. rewrite compare_append by now rewrite !fixed_length.
    rewrite IH by (Z.div_mod_to_equations; lia).
    rewrite (compare_by_digits a b).
    destruct (a / 10 ?= b / 10); try reflexivity.
    cbn [String.compare].
    rewrite digit_char_compare by (Z.div_mod_to_equations; lia).
    now destruct (a mod 10 ?= b mod 10).
Qed.

Lemma pad_fixed (k : nat) (n : Z) :
  n < 10 ^ Z.of_nat k -> pad k n = fixed k n.
Proof.
  intros H. unfold pad.
  destruct (Z.ltb_spec n (10 ^ Z.of_nat k)); [reflexivity | lia].
Qed.

Lemma days_in_month_le (y m : Z) : days_in_month y m <= 31.
Proof.
  unfold days_in_month. destruct ((m =? 2) && is_leap y); [lia | ].
  generalize (Z.to_nat m). intros n.
  do 13 (destruct n as [ | n]; [simpl; lia | ]).
  destruct n; simpl; lia.
Qed.

Lemma valid_datetime_fields (d : datetime) :
  valid_datetime d = true ->
  (1 <= year d <= 9999) /\ (1 <= month d <= 12) /\ (1 <= day d <= 31) /\
  (0 <= hour d <= 23) /\ (0 <= minute d <= 59) /\ (0 <= second d <= 59) /\
  (0 <= microsecond d <= 999999).
Proof.
  unfold valid_datetime. intros H.
  repeat (apply andb_true_iff in H; destruct H as [H ?]).
  repeat match goal with
         | E : (_ <=? _) = true |- _ => apply Z.leb_le in E
         end.
  pose proof (days_in_month_le (year d) (month d)). lia.
Qed.

Lemma format_offset_head (tz : option Z) :
  format_offset tz = EmptyString \/
  exists r, format_offset tz = String "+" r \/ format_offset tz = String "-" r.
Proof.
  destruct tz as [o | ]; [right | now left].
  unfold format_offset. destruct (o <? 0); eexists; [right | left]; reflexivity.
Qed.

(** The fraction and the offset: an absent fraction comes first, as the
    offset begins with a sign, which sorts before the point. *)
Lemma fraction_compare (us us' : Z) (tz : option Z) :
  0 <= us <= 999999 -> 0 <= us' <= 999999 ->
  String.compare
    ((if us =? 0 then EmptyString else "." ++ pad 6 us) ++ format_offset tz)
    ((if us' =? 0 then EmptyString else "." ++ pad 6 us') ++ format_offset tz) =
  (us ?= us').
Proof.
  intros H H'. rewrite !pad_fixed by (simpl; lia).
  destruct (Z.eqb_spec us 0) as [-> | Hn]; destruct (Z.eqb_spec us' 0) as [-> | Hn'].
  - simpl. apply compare_refl.
  - replace (0 ?= us') with Lt by (symmetry; apply Z.compare_lt_iff; lia).
    destruct (format_offset_head tz) as [-> | [r [-> | ->]]]; reflexivity.
  - replace (us ?= 0) with Gt by (symmetry; apply Z.compare_gt_iff; lia).
    destruct (format_offset_head tz) as [-> | [r [-> | ->]]]; reflexivity.
  - rewrite compare_append
      by (cbn [append String.length]; now rewrite !fixed_length).
    cbn [append String.compare]. rewrite ascii_compare_refl.
    rewrite fixed_compare by (simpl; lia).
    destruct (us ?= us'); try reflexivity. apply compare_refl.
Qed.

(** The texts that [isoformat] writes for two valid values with the same
    [tzinfo] are ordered as the values are. *)
Lemma isoformat_compare (a b : datetime) :
  valid_datetime a = true -> valid_datetime b = true ->
  tzinfo a = tzinfo b ->
  String.compare (isoformat a) (isoformat b) = lex_compare (fields a) (fields b).
Proof.
  intros Va Vb Htz.
  apply valid_datetime_fields in Va. apply valid_datetime_fields in Vb.
  unfold isoformat, format_time. rewrite Htz.
  rewrite !(pad_fixed 4), !(pad_fixed 2) by (simpl; lia).
  rewrite !append_assoc.
  unfold fields. cbn [lex_compare].
  repeat (rewrite compare_append
            by (cbn [String.length]; now rewrite ?fixed_length);
          first [ rewrite fixed_compare by (simpl; lia);
                  match goal with
                  | |- match ?c with _ => _ end = match ?c with _ => _ end =>
                      destruct c; try reflexivity
                  end
                | cbn [String.compare]; rewrite ascii_compare_refl ]).
  rewrite fraction_compare by lia.
  now destruct (microsecond a ?= microsecond b).
Qed.

Lemma isoformat_le (a b : datetime) :
  valid_datetime a = true -> valid_datetime b = true ->
  tzinfo a = tzinfo b ->
  datetime_le a b -> String.leb (isoformat a) (isoformat b) = true.
Proof.
  intros Va Vb Htz Hle. unfold String.leb.
  rewrite isoformat_compare by assumption.
  unfold datetime_le in Hle. now destruct (lex_compare (fields a) (fields b)).
Qed.

(** * The order of the serialized timestamps *)

(** A map that is monotone on the elements of a sorted list keeps it
    sorted. *)
Lemma Sorted_map_on {A B : Type} (P : A -> Prop)
  (R : A -> A -> Prop) (R' : B -> B -> Prop) (f : A -> B) (l : list A) :
  (forall x y, P x -> P y -> R x y -> R' (f x) (f y)) ->
  Forall P l -> Sorted R l -> Sorted R' (map f l).
Proof.
  intros Hmono HP HS. induction HS as [ | a l Hs IH Hhd]; simpl; constructor.
  - apply IH. now inversion HP.
  - inversion HP as [ | ? ? Pa Pl]; subst.
    destruct Hhd as [ | b l' Rab]; simpl; constructor.
    apply Hmono; auto. now inversion Pl.
Qed.

Section Chronology.

Variable fromisoformat : string -> option datetime.
Variable local_utcoffset : Z.
Variable open_meteo_forecast : forecast_query -> reply.

Local Notation normalize := (normalize_time fromisoformat local_utcoffset).
Local Notation handler :=
  (api_forecast fromisoformat local_utcoffset open_meteo_forecast).
Local Notation query lat lon :=
  (mkQuery lat lon false "kn"
     [TEMPERATURE_2M; WIND_DIRECTION_10M; WIND_SPEED_10M; WIND_GUSTS_10M]).


End Chronology.

(** * The program on concrete inputs *)

Ltac by_computation := vm_compute; first [reflexivity | discriminate | lia].



(** A ["Z"] that is not the last character is replaced as well: a text
    that parses as it stands is lost to the epoch, and a text that does not
    parse as it stands is given an offset of thirty seconds. *)
Lemma inner_Z_is_replaced_too :
  normalize_time fromisoformat_strict 0 (TOther "2024-01-01Z00:00:00") =
  mkDatetime 1970 1 1 0 0 0 0 None /\
  normalize_time_trailing_Z fromisoformat_strict 0 (TOther "2024-01-01Z00:00:00") =
  mkDatetime 2024 1 1 0 0 0 0 None /\
  normalize_time fromisoformat_strict 0 (TOther "2024-01-01T00:00:00Z:30") =
  mkDatetime 2024 1 1 0 0 0 0 (Some 30000000) /\
  normalize_time_trailing_Z fromisoformat_strict 0 (TOther "2024-01-01T00:00:00Z:30") =
  mkDatetime 1970 1 1 0 0 0 0 None /\
  ~ (forall t : raw_time,
        normalize_time fromisoformat_strict 0 t =
        normalize_time_trailing_Z fromisoformat_strict 0 t).
Proof.
  split; [by_computation | ].
  split; [by_computation | ].
  split; [by_computation | ].
  split; [by_computation | ].
  intros H. specialize (H (TOther "2024-01-01Z00:00:00")).
  vm_compute in H. discriminate.
Qed.


Lemma normalize_time_replaces_every_Z_witness :
  normalize_time fromisoformat_strict 0 (TOther "2024-01-01T00:00:00Z") =
  mkDatetime 2024 1 1 0 0 0 0 (Some 0) /\
  normalize_time fromisoformat_strict 0 (TOther "2024-01-01T00:00:00Z") =
  normalize_time_trailing_Z fromisoformat_strict 0 (TOther "2024-01-01T00:00:00Z") /\
  normalize_time fromisoformat_strict 0 (TOther "not-a-date") =
  mkDatetime 1970 1 1 0 0 0 0 None /\
  timestamp_us 0 (fromtimestamp0 0) = 0.
Proof.
  destruct (normalize_time_replaces_every_Z fromisoformat_strict 0)
    as (_ & _ & H3 & H4 & H5 & H6).
  split; [ | split; [ | split]].
  - apply H4. vm_compute. reflexivity.
  - apply H3. intros s E. inversion E. vm_compute. reflexivity.
  - apply (H5 "not-a-date"). vm_compute. reflexivity.
  - apply H6. lia.
Defined.




Lemma fetch_failure_is_500_witness :
  api_forecast fromisoformat_strict 0 failing_service (sample_payload []) =
  Some ((500, JDict [("error",
                      JStr "Forecast fetch failed: Error occurred while communicating with Open-Meteo API")]),
        sample_events) /\
  api_forecast fromisoformat_strict 0 slow_service (sample_payload []) =
  Some ((500, JDict [("error", JStr "Forecast fetch failed: ")]), sample_events) /\
  api_forecast fromisoformat_strict 0 slow_service (sample_payload []) <> None.
Proof.
  assert (Hr : read_payload (sample_payload []) = Ok (41.5%float, (-71.25)%float, 120))
    by (vm_compute; reflexivity).
  split; [ | split].
  - destruct (fetch_failure_is_500 fromisoformat_strict 0 failing_service _ _ _ _ Hr)
      as (_ & H2 & _).
    apply (H2 (1 # 1)%Q connection_error); reflexivity.
  - destruct (fetch_failure_is_500 fromisoformat_strict 0 slow_service _ _ _ _ Hr)
      as (_ & _ & H3 & _).
    apply H3. right. exists (45 # 1)%Q. split; reflexivity.
  - destruct (fetch_failure_is_500 fromisoformat_strict 0 slow_service _ _ _ _ Hr)
      as (_ & _ & _ & H4).
    exact H4.
Defined.

Lemma fetch_truncates_to_horizon_witness :
  outcome (fetch_openmeteo fromisoformat_strict 0 sample_service 41.5 (-71.25) 2) =
  Ok (shape_series fromisoformat_strict 0 (mkForecast sample_hourly) 2) /\
  time_dt (shape_series fromisoformat_strict 0 (mkForecast sample_hourly) 2) =
  [midnight 1 0; midnight 1 1] /\
  wind_gust (shape_series fromisoformat_strict 0 (mkForecast sample_hourly) 5) =
  [15; 16; 17]%float /\
  List.length (wind_dir (shape_series fromisoformat_strict 0 (mkForecast sample_hourly) 0)) =
  1%nat.
Proof.
  split; [ | split; [ | split]].
  - destruct (fetch_truncates_to_horizon fromisoformat_strict 0 sample_service
                41.5 (-71.25) 2 (mkForecast sample_hourly)) as (H1 & _).
    apply H1. reflexivity.
  - destruct (fetch_truncates_to_horizon fromisoformat_strict 0 sample_service
                41.5 (-71.25) 2 (mkForecast sample_hourly))
      as (_ & _ & (Ht & _) & _).
    rewrite Ht. vm_compute. reflexivity.
  - destruct (fetch_truncates_to_horizon fromisoformat_strict 0 sample_service
                41.5 (-71.25) 5 (mkForecast sample_hourly))
      as (_ & _ & _ & _ & _ & _ & _ & Hg & _).
    apply Hg. vm_compute. lia.
  - destruct (fetch_truncates_to_horizon fromisoformat_strict 0 sample_service
                41.5 (-71.25) 0 (mkForecast sample_hourly))
      as (_ & _ & _ & (_ & Ld & _) & _).
    rewrite Ld. reflexivity.
Defined.



(** A first timestamp at [datetime.min] has no half hour before it; a NaN
    gust gives no y-limit; a Matplotlib that wants one height for each
    position refuses two timestamps for three speeds. *)
Example render_png_year_one :
  render_png any_figure (mkSeries [datetime_min] [180] [10]%float [15]%float)
    "static/figure.png" no_files =
  Raise (mkExn OverflowError "date value out of range").
Proof. vm_compute. reflexivity. Qed.

Example render_png_nan_gust :
  render_png any_figure (mkSeries [midnight 1 0] [180] [10]%float [nan])
    "static/figure.png" no_files =
  Raise (mkExn ValueError "Axis limits cannot be NaN or Inf").
Proof. vm_compute. reflexivity. Qed.

Example render_png_infinite_gust :
  render_png any_figure (mkSeries [midnight 1 0] [180] [10]%float [infinity])
    "static/figure.png" no_files =
  Raise (mkExn ValueError "Axis limits cannot be NaN or Inf").
Proof. vm_compute. reflexivity. Qed.

Example render_png_two_times_three_speeds :
  render_png strict_bar
    (mkSeries [midnight 1 0; midnight 1 1] [180; 190; 200]
       [12; 10; 11]%float [15; 17; 16]%float)
    "static/figure.png" no_files =
  Raise (mkExn ValueError
           "shape mismatch: objects cannot be broadcast to a single shape").
Proof. vm_compute. reflexivity. Qed.

(** * More about the handler *)

Section Handler.

Variable fromisoformat : string -> option datetime.
Variable local_utcoffset : Z.
Variable open_meteo_forecast : forecast_query -> reply.

Local Notation normalize := (normalize_time fromisoformat local_utcoffset).
Local Notation shape := (shape_series fromisoformat local_utcoffset).
Local Notation fetch :=
  (fetch_openmeteo fromisoformat local_utcoffset open_meteo_forecast).
Local Notation handler :=
  (api_forecast fromisoformat local_utcoffset open_meteo_forecast).
Local Notation query lat lon :=
  (mkQuery lat lon false "kn"
     [TEMPERATURE_2M; WIND_DIRECTION_10M; WIND_SPEED_10M; WIND_GUSTS_10M]).
Local Notation service lat lon := (open_meteo_forecast (query lat lon)).

(** X1: The first [try] block accepts exactly the JSON objects that have a
    [lat] and a [lon] entry which [float] converts; it looks at nothing
    else, checks no range, and the horizon it yields is 120. *)
Theorem read_payload_accepts_exactly
  (req : request) (lat lon : float) (hours : Z) :
  read_payload req = Ok (lat, lon, hours) <->
  exists (kvs : list (string * json)) (lat_v lon_v : json),
    body_json req = Some (JDict kvs) /\
    dict_get "lat" kvs = Some lat_v /\ float_ lat_v = Ok lat /\
    dict_get "lon" kvs = Some lon_v /\ float_ lon_v = Ok lon /\
    hours = 120.
Proof.
  split.
  - intros H. destruct req as [[payload | ]]; [ | discriminate].
    destruct payload as [ | b | n | f | s | l | kvs]; try discriminate.
    rewrite read_payload_dict in H.
    destruct (dict_get "lat" kvs) as [lat_v | ] eqn:Hlat; [ | discriminate].
    cbn [of_option bind] in H.
    destruct (float_ lat_v) as [lat' | ] eqn:Elat; [ | discriminate].
    cbn [bind] in H.
    destruct (dict_get "lon" kvs) as [lon_v | ] eqn:Hlon; [ | discriminate].
    cbn [of_option bind] in H.
    destruct (float_ lon_v) as [lon' | ] eqn:Elon; [ | discriminate].
    cbn [bind] in H. inversion H. subst.
    exists kvs, lat_v, lon_v. repeat split; first [assumption | reflexivity].
  - intros (kvs & lat_v & lon_v & Hb & Hlat & Flat & Hlon & Flon & ->).
    destruct req as [b]. cbn in Hb. subst b.
    rewrite read_payload_dict, Hlat. cbn [of_option bind].
    rewrite Flat. cbn [bind]. rewrite Hlon. cbn [of_option bind].
    rewrite Flon. reflexivity.
Qed.

(** X2: The handler always answers, with one of three statuses, and each
    status tells what happened: 400 for a payload that is not accepted,
    with the fixed body and no call; 200 when the service answered with a
    forecast within 30 seconds; 500 when it raised, was late or never
    answered.  In the last two cases the service was called once. *)
Theorem response_status_cases (req : request) :
  exists (r : response) (done : list event),
    handler req = Some (r, done) /\
    ((fst r = 400 /\
      r = (400, JDict [("error",
                        JStr "Invalid payload. Provide lat, lon, optional hours.")]) /\
      done = [] /\
      exists e, read_payload req = Raise e) \/
     (exists lat lon : float,
         read_payload req = Ok (lat, lon, 120) /\
         done = [Fetch lat lon 120; Remote (query lat lon)] /\
         ((fst r = 200 /\
           exists (d : Q) (f : Forecast),
             answered_after (service lat lon) = Some d /\
             Qle_bool d (30 # 1) = true /\
             answer (service lat lon) = Ok f) \/
          (fst r = 500 /\
           (answered_after (service lat lon) = None \/
            (exists d : Q,
                answered_after (service lat lon) = Some d /\
                Qle_bool d (30 # 1) = false) \/
            (exists e, answer (service lat lon) = Raise e)))))).
Proof.
  destruct (read_payload req) as [[[lat lon] hours] | e] eqn:Hread.
  - pose proof (read_payload_hours _ _ _ _ Hread) as ->.
    rewrite (handler_valid fromisoformat local_utcoffset open_meteo_forecast
               req lat lon 120 Hread).
    unfold run. cbn [latency outcome effects fetch_openmeteo].
    destruct (answered_after (service lat lon)) as [d | ] eqn:Hd.
    + destruct (Qle_bool d (30 # 1)) eqn:Hle.
      * destruct (answer (service lat lon)) as [f | e] eqn:Ha; cbn [bind].
        -- do 2 eexists. split; [reflexivity | ]. right. exists lat, lon.
           split; [reflexivity | ]. split; [reflexivity | ]. left.
           split; [reflexivity | ]. exists d, f. auto.
        -- do 2 eexists. split; [reflexivity | ]. right. exists lat, lon.
           split; [reflexivity | ]. split; [reflexivity | ]. right.
           split; [reflexivity | ]. right. right. eauto.
      * do 2 eexists. split; [reflexivity | ]. right. exists lat, lon.
        split; [reflexivity | ]. split; [reflexivity | ]. right.
        split; [reflexivity | ]. right. left. eauto.
    + do 2 eexists. split; [reflexivity | ]. right. exists lat, lon.
      split; [reflexivity | ]. split; [reflexivity | ]. right.
      split; [reflexivity | ]. now left.
  - rewrite (handler_invalid fromisoformat local_utcoffset open_meteo_forecast
               req e Hread).
    do 2 eexists. split; [reflexivity | ]. left.
    split; [reflexivity | ]. split; [reflexivity | ]. split; [reflexivity | ].
    eauto.
Qed.

(** X3: The payload acts on the response only through the two converted
    coordinates: two payloads that convert to the same doubles, whatever
    the JSON types and the other keys, are answered alike, and so are any
    two payloads that are not accepted. *)
Theorem response_depends_on_coordinates_only (req req' : request) :
  (forall (lat lon : float) (hours hours' : Z),
      read_payload req = Ok (lat, lon, hours) ->
      read_payload req' = Ok (lat, lon, hours') ->
      handler req = handler req') /\
  (forall e e' : exn,
      read_payload req = Raise e ->
      read_payload req' = Raise e' ->
      handler req = handler req').
Proof.
  split.
  - intros lat lon hours hours' H H'.
    rewrite (handler_valid _ _ _ req lat lon hours H).
    rewrite (handler_valid _ _ _ req' lat lon hours' H'). reflexivity.
  - intros e e' H H'.
    rewrite (handler_invalid _ _ _ req e H).
    rewrite (handler_invalid _ _ _ req' e' H'). reflexivity.
Qed.

(** X4: The body of a successful response, in full: the ISO texts of the first
    120 source timestamps once normalized, the first 120 values of each
    wind array as the service gave them, and the coordinates, the horizon
    120 and the unit echoed under [meta]. *)
Theorem success_body_content
  (req : request) (body : json) (done : list event) :
  handler req = Some ((200, body), done) ->
  exists (lat lon : float) (f : Forecast),
    read_payload req = Ok (lat, lon, 120) /\
    answer (service lat lon) = Ok f /\
    body =
    JDict [("time",
            JList (map JStr
                     (map isoformat
                        (map normalize (firstn 120 (time (hourly f)))))));
           ("wind_dir",
            JList (map JInt (firstn 120 (wind_direction_10m (hourly f)))));
           ("wind_speed",
            JList (map JFloat (firstn 120 (wind_speed_10m (hourly f)))));
           ("wind_gust",
            JList (map JFloat (firstn 120 (wind_gusts_10m (hourly f)))));
           ("meta", JDict [("lat", JFloat lat); ("lon", JFloat lon);
                           ("hours", JInt 120); ("unit", JStr "knots")])].
Proof.
  intros H.
  destruct (handler_200 _ _ _ req body done H) as (lat & lon & f & Hr & Ha & ->).
  exists lat, lon, f. split; [exact Hr | ]. split; [exact Ha | ].
  destruct (shape_series_fields fromisoformat local_utcoffset f 120)
    as (Et & Ed & Es & Eg).
  change (Z.to_nat (Z.max 1 120)) with 120%nat in Et, Ed, Es, Eg.
  unfold forecast_body. now rewrite Et, Ed, Es, Eg.
Qed.

(** X5: A shorter horizon gives a prefix of what a longer one gives, and every
    horizon below 1 gives what the horizon 1 gives: the bound of the slice
    is never zero or negative. *)
Theorem shorter_horizon_is_prefix (f : Forecast) (h1 h2 : Z) :
  h1 <= h2 ->
  let n1 := Z.to_nat (Z.max 1 h1) in
  (time_dt (shape f h1) = firstn n1 (time_dt (shape f h2)) /\
   wind_dir (shape f h1) = firstn n1 (wind_dir (shape f h2)) /\
   wind_speed (shape f h1) = firstn n1 (wind_speed (shape f h2)) /\
   wind_gust (shape f h1) = firstn n1 (wind_gust (shape f h2))) /\
  (h1 <= 1 -> shape f h1 = shape f 1).
Proof.
  intros Hle n1.
  destruct (shape_series_fields fromisoformat local_utcoffset f h1)
    as (Et1 & Ed1 & Es1 & Eg1).
  destruct (shape_series_fields fromisoformat local_utcoffset f h2)
    as (Et2 & Ed2 & Es2 & Eg2).
  fold n1 in Et1, Ed1, Es1, Eg1.
  assert (Hmin : Nat.min n1 (Z.to_nat (Z.max 1 h2)) = n1) by (subst n1; lia).
  split.
  - rewrite Et1, Ed1, Es1, Eg1, Et2, Ed2, Es2, Eg2.
    rewrite firstn_map, !firstn_firstn, Hmin. repeat split; reflexivity.
  - intros H1. unfold shape_series.
    now replace (Z.max 1 h1) with (Z.max 1 1) by lia.
Qed.

End Handler.

Lemma read_payload_accepts_exactly_witness :
  read_payload
    (mkRequest (Some (JDict [("lon", JStr "-71.25"); ("unit", JNull);
                             ("lat", JInt 41)]))) =
  Ok (41%float, (-71.25)%float, 120).
Proof.
  apply (proj2 (read_payload_accepts_exactly _ _ _ _)).
  exists [("lon", JStr "-71.25"); ("unit", JNull); ("lat", JInt 41)],
    (JInt 41), (JStr "-71.25").
  split; [reflexivity | ]. split; [reflexivity | ].
  split; [vm_compute; reflexivity | ]. split; [reflexivity | ].
  split; [vm_compute; reflexivity | reflexivity].
Defined.

Lemma response_depends_on_coordinates_only_witness :
  api_forecast fromisoformat_strict 0 sample_service
    (mkRequest (Some (JDict [("lat", JStr " 1e0 "); ("lon", JInt 0)]))) =
  api_forecast fromisoformat_strict 0 sample_service
    (mkRequest (Some (JDict [("lon", JBool false); ("hours", JNull);
                             ("lat", JBool true)]))) /\
  api_forecast fromisoformat_strict 0 sample_service (mkRequest None) =
  api_forecast fromisoformat_strict 0 sample_service
    (mkRequest (Some (JList [JFloat 41.5; JFloat (-71.25)]))).
Proof.
  split.
  - apply (proj1 (response_depends_on_coordinates_only fromisoformat_strict 0
                    sample_service _ _) 1%float 0%float 120 120);
      vm_compute; reflexivity.
  - eapply (proj2 (response_depends_on_coordinates_only fromisoformat_strict 0
                     sample_service _ _)); vm_compute; reflexivity.
Defined.

Lemma success_body_content_witness :
  exists (lat lon : float) (f : Forecast),
    read_payload (sample_payload []) = Ok (lat, lon, 120) /\
    answer (sample_service (mkQuery lat lon false "kn"
                              [TEMPERATURE_2M; WIND_DIRECTION_10M;
                               WIND_SPEED_10M; WIND_GUSTS_10M])) = Ok f /\
    lookup_path ["wind_gust"] sample_body =
    Some (JList (map JFloat (firstn 120 (wind_gusts_10m (hourly f))))).
Proof.
  assert (H : api_forecast fromisoformat_strict 0 sample_service (sample_payload []) =
              Some ((200, sample_body), sample_events)) by (vm_compute; reflexivity).
  destruct (success_body_content fromisoformat_strict 0 sample_service
              (sample_payload []) sample_body sample_events H)
    as (lat & lon & f & Hr & Ha & Hb).
  exists lat, lon, f. split; [exact Hr | ]. split; [exact Ha | ].
  rewrite Hb. reflexivity.
Defined.

Lemma shorter_horizon_is_prefix_witness :
  wind_dir (shape_series fromisoformat_strict 0 (mkForecast sample_hourly) 2) =
  firstn 2 (wind_dir (shape_series fromisoformat_strict 0 (mkForecast sample_hourly) 3)) /\
  shape_series fromisoformat_strict 0 (mkForecast sample_hourly) (-7) =
  shape_series fromisoformat_strict 0 (mkForecast sample_hourly) 1.
Proof.
  destruct (shorter_horizon_is_prefix fromisoformat_strict 0
              (mkForecast sample_hourly) 2 3) as ((_ & Hd & _) & _); [lia | ].
  destruct (shorter_horizon_is_prefix fromisoformat_strict 0
              (mkForecast sample_hourly) (-7) 1) as (_ & H1); [lia | ].
  split; [exact Hd | apply H1; lia].
Defined.

(** * Reading back the texts of [isoformat] *)

Lemma digit_char_facts (x : Z) :
  0 <= x <= 9 ->
  is_digit (digit_char x) = true /\ digit_value (digit_char x) = x.
Proof.
  intros H.
  assert (E : x = 0 \/ x = 1 \/ x = 2 \/ x = 3 \/ x = 4 \/ x = 5 \/ x = 6
              \/ x = 7 \/ x = 8 \/ x = 9) by lia.
  repeat (destruct E as [-> | E]; [split; reflexivity | ]).
  subst x. split; reflexivity.
Qed.

Lemma is_digit_plain (c : ascii) :
  is_digit c = true ->
  (c =? "+")%char = false /\ (c =? "-")%char = false /\ (c =? "Z")%char = false.
Proof.
  destruct c as [[] [] [] [] [] [] [] []]; vm_compute; intros H;
    first [discriminate H | repeat split; reflexivity].
Qed.

Lemma chars_length (s : string) : List.length (chars s) = String.length s.
Proof. induction s as [ | c s IH]; simpl; [reflexivity | now rewrite IH]. Qed.

Lemma fixed_chars_length (k : nat) (n : Z) : List.length (chars (fixed k n)) = k.
Proof. now rewrite chars_length, fixed_length. Qed.

Lemma fixed_chars_step (k : nat) (n : Z) :
  chars (fixed (S k) n) = (chars (fixed k (n / 10)) ++ [digit_char (n mod 10)])%list.
Proof. cbn [fixed]. now rewrite chars_append. Qed.

Lemma fixed_chars_digits (k : nat) (n : Z) :
  forallb is_digit (chars (fixed k n)) = true.
Proof.
  revert n. induction k as [ | k IH]; intros n; [reflexivity | ].
  rewrite fixed_chars_step, forallb_app, IH. cbn [forallb andb].
  destruct (digit_char_facts (n mod 10)) as [-> _]; [ | reflexivity].
  pose proof (Z.mod_pos_bound n 10). lia.
Qed.

Lemma fixed_chars_number (k : nat) (n : Z) :
  0 <= n < 10 ^ Z.of_nat k ->
  number_of_digits (map digit_value (chars (fixed k n))) = n.
Proof.
  unfold number_of_digits. revert n.
  induction k as [ | k IH]; intros n H.
  - cbn in H |- *. lia.
  - rewrite fixed_chars_step, map_app, fold_left_app. cbn [map fold_left].
    assert (Hm : 0 <= n mod 10 <= 9) by (pose proof (Z.mod_pos_bound n 10); lia).
    destruct (digit_char_facts (n mod 10) Hm) as [_ ->].
    rewrite IH.
    + pose proof (Z.div_mod n 10). lia.
    + rewrite Nat2Z.inj_succ, Z.pow_succ_r in H by lia.
      split; [apply Z.div_pos; lia | apply Z.div_lt_upper_bound; lia].
Qed.

Lemma int_of_fixed (k : nat) (n : Z) :
  (0 < k)%nat -> 0 <= n < 10 ^ Z.of_nat k ->
  int_of (chars (fixed k n)) = Some n.
Proof.
  intros Hk H. unfold int_of.
  pose proof (fixed_chars_length k n) as Hl.
  rewrite fixed_chars_digits, fixed_chars_number by exact H.
  destruct (chars (fixed k n)); [cbn in Hl; lia | reflexivity].
Qed.

Lemma split_at_sign_digits (t z : list ascii) :
  forallb (fun c => is_digit c || (c =? ":")%char || (c =? ".")%char) t = true ->
  split_at_sign (t ++ z) = ((t ++ fst (split_at_sign z))%list, snd (split_at_sign z)).
Proof.
  induction t as [ | c t IH]; intros H.
  - cbn [app]. now destruct (split_at_sign z).
  - cbn [forallb] in H. apply andb_true_iff in H. destruct H as [Hc Ht].
    cbn [app split_at_sign].
    assert (E : (c =? "+")%char = false /\ (c =? "-")%char = false).
    { destruct (is_digit c) eqn:Hd.
      - destruct (is_digit_plain c Hd) as (? & ? & _). now split.
      - cbn [orb] in Hc. apply orb_true_iff in Hc.
        destruct Hc as [Hc | Hc]; apply Ascii.eqb_eq in Hc; subst c; now split. }
    destruct E as [-> ->]. rewrite (IH Ht). reflexivity.
Qed.

Ltac two l := destruct l as [ | ? [ | ? [ | ? ?]]]; try discriminate.

Ltac colon :=
  change (negb (":" =? ":")%char) with false;
  change (negb ("." =? ".")%char) with false; cbv iota.

Section Clock.

Variables (X Y W F : list ascii) (hh mm ss ff : Z).
Hypothesis HX : int_of X = Some hh.
Hypothesis HY : int_of Y = Some mm.
Hypothesis HW : int_of W = Some ss.
Hypothesis HF : int_of F = Some ff.
Hypothesis LX : List.length X = 2%nat.
Hypothesis LY : List.length Y = 2%nat.
Hypothesis LW : List.length W = 2%nat.
Hypothesis LF : List.length F = 6%nat.

Lemma parse_hh_mm :
  parse_hh_mm_ss_ff (X ++ ":"%char :: Y) = Some (hh, mm, 0, 0).
Proof.
  clear HW HF LW LF. two X. two Y.
  unfold parse_hh_mm_ss_ff. cbn [app firstn skipn]. rewrite HX. colon.
  rewrite HY. reflexivity.
Qed.

Lemma parse_hh_mm_ss :
  parse_hh_mm_ss_ff (X ++ ":"%char :: Y ++ ":"%char :: W) = Some (hh, mm, ss, 0).
Proof.
  clear HF LF. two X. two Y. two W.
  unfold parse_hh_mm_ss_ff. cbn [app firstn skipn]. rewrite HX. colon.
  rewrite HY. colon. rewrite HW. reflexivity.
Qed.

Lemma parse_hh_mm_ss_us :
  parse_hh_mm_ss_ff (X ++ ":"%char :: Y ++ ":"%char :: W ++ "."%char :: F) =
  Some (hh, mm, ss, ff).
Proof.
  two X. two Y. two W.
  unfold parse_hh_mm_ss_ff. cbn [app firstn skipn]. rewrite HX. colon.
  rewrite HY. colon. rewrite HW. colon. rewrite HF, LF. reflexivity.
Qed.

End Clock.

Lemma fixed_chars_plain (k : nat) (n : Z) :
  forallb (fun c => is_digit c || (c =? ":")%char || (c =? ".")%char)
    (chars (fixed k n)) = true.
Proof.
  pose proof (fixed_chars_digits k n) as H.
  induction (chars (fixed k n)) as [ | c l IH]; [reflexivity | ].
  cbn [forallb] in H |- *. apply andb_true_iff in H. destruct H as [-> Hl].
  now rewrite IH.
Qed.

(** The characters of a formatted time of day. *)
Lemma format_time_chars (hh mm ss us : Z) :
  0 <= hh <= 23 -> 0 <= mm <= 59 -> 0 <= ss <= 59 -> 0 <= us <= 999999 ->
  chars (format_time hh mm ss us) =
  (chars (fixed 2 hh) ++ ":"%char :: chars (fixed 2 mm) ++ ":"%char ::
   chars (fixed 2 ss) ++
   (if us =? 0 then [] else "."%char :: chars (fixed 6 us)))%list.
Proof.
  intros Hh Hm Hs Hu. unfold format_time.
  rewrite !pad_fixed by (cbn; lia).
  rewrite !chars_append.
  change (chars ":") with [":"%char]. cbn [app].
  destruct (us =? 0); [reflexivity | ].
  rewrite chars_append. reflexivity.
Qed.

Lemma parse_format_time (hh mm ss us : Z) :
  0 <= hh <= 23 -> 0 <= mm <= 59 -> 0 <= ss <= 59 -> 0 <= us <= 999999 ->
  parse_hh_mm_ss_ff (chars (format_time hh mm ss us)) = Some (hh, mm, ss, us) /\
  forallb (fun c => is_digit c || (c =? ":")%char || (c =? ".")%char)
    (chars (format_time hh mm ss us)) = true.
Proof.
  intros Hh Hm Hs Hu. rewrite format_time_chars by assumption.
  split.
  - destruct (us =? 0) eqn:E.
    + apply Z.eqb_eq in E. subst us. rewrite app_nil_r.
      apply parse_hh_mm_ss;
        first [apply int_of_fixed; [lia | cbn; lia] | apply fixed_chars_length].
    + apply parse_hh_mm_ss_us;
        first [apply int_of_fixed; [lia | cbn; lia] | apply fixed_chars_length].
  - rewrite forallb_app, fixed_chars_plain. cbn [forallb andb].
    rewrite forallb_app, fixed_chars_plain. cbn [forallb andb].
    rewrite forallb_app, fixed_chars_plain. cbn [andb].
    destruct (us =? 0); [reflexivity | ].
    cbn [forallb]. rewrite fixed_chars_plain.
    rewrite !orb_true_r. reflexivity.
Qed.

Ltac finish_offset :=
  match goal with
  | Eo : (if ?b then - ?a else ?a) = ?o |- Some _ = Some ?o =>
      transitivity (Some (if b then - a else a));
      [f_equal; destruct b; lia | now rewrite Eo]
  end.

Lemma parse_format_offset (o : Z) :
  - day_us < o < day_us ->
  exists rest,
    chars (format_offset (Some o)) =
    (if o <? 0 then "-"%char else "+"%char) :: rest /\
    parse_offset (o <? 0) rest = Some o.
Proof.
  unfold day_us. intros Ho. unfold format_offset. cbv zeta.
  set (a := Z.abs o).
  assert (Ha : 0 <= a < 86400000000) by (subst a; lia).
  set (hh := a / 3600000000).
  set (r := a mod 3600000000).
  set (mm := r / 60000000).
  set (ss := r mod 60000000).
  assert (Hr : 0 <= r < 3600000000) by (subst r; apply Z.mod_pos_bound; lia).
  assert (Hh : 0 <= hh <= 23).
  { subst hh. split; [apply Z.div_pos; lia | ].
    apply Z.lt_succ_r, Z.div_lt_upper_bound; lia. }
  assert (Hm : 0 <= mm <= 59).
  { subst mm. split; [apply Z.div_pos; lia | ].
    apply Z.lt_succ_r, Z.div_lt_upper_bound; lia. }
  assert (Hs : 0 <= ss < 60000000) by (subst ss; apply Z.mod_pos_bound; lia).
  assert (Hs2 : 0 <= ss / 1000000 <= 59).
  { split; [apply Z.div_pos; lia | ].
    apply Z.lt_succ_r, Z.div_lt_upper_bound; lia. }
  assert (Hu : 0 <= ss mod 1000000 < 1000000) by (apply Z.mod_pos_bound; lia).
  assert (Ea : a = hh * 3600000000 + r).
  { subst hh r. pose proof (Z.div_mod a 3600000000). lia. }
  assert (Er : r = mm * 60000000 + ss).
  { subst mm ss. pose proof (Z.div_mod r 60000000). lia. }
  assert (Es : ss = ss / 1000000 * 1000000 + ss mod 1000000).
  { pose proof (Z.div_mod ss 1000000). lia. }
  assert (Eo : (if o <? 0 then - a else a) = o).
  { subst a. destruct (o <? 0) eqn:E; [apply Z.ltb_lt in E | apply Z.ltb_ge in E]; lia. }
  rewrite !pad_fixed by (cbn; lia).
  rewrite !chars_append.
  assert (I2 : forall n, 0 <= n <= 59 -> int_of (chars (fixed 2 n)) = Some n).
  { intros n Hn. apply int_of_fixed; [lia | cbn; lia]. }
  eexists. split.
  - destruct (o <? 0); cbn [chars list_ascii_of_string app]; reflexivity.
  - unfold parse_offset.
    change (chars ":") with [":"%char]. cbn [app].
    destruct (ss =? 0) eqn:E0.
    + apply Z.eqb_eq in E0. cbn [chars list_ascii_of_string]. rewrite app_nil_r.
      rewrite (parse_hh_mm _ _ hh mm) by
        first [apply I2; lia | apply fixed_chars_length].
      rewrite length_app. cbn [List.length]. rewrite !fixed_chars_length.
      cbn [Nat.add existsb Nat.eqb orb negb].
      finish_offset.
    + apply Z.eqb_neq in E0. rewrite !chars_append.
      change (chars ":") with [":"%char]. cbn [app].
      destruct (ss mod 1000000 =? 0) eqn:E1.
      * apply Z.eqb_eq in E1. cbn [chars list_ascii_of_string]. rewrite app_nil_r.
        rewrite (parse_hh_mm_ss _ _ _ hh mm (ss / 1000000)) by
          first [apply I2; lia | apply fixed_chars_length].
        rewrite !length_app. cbn [List.length]. rewrite !length_app.
        cbn [List.length]. rewrite !fixed_chars_length.
        cbn [Nat.add existsb Nat.eqb orb negb].
        finish_offset.
      * apply Z.eqb_neq in E1. rewrite chars_append.
        change (chars ".") with ["."%char]. cbn [app].
        rewrite (parse_hh_mm_ss_us _ _ _ _ hh mm (ss / 1000000) (ss mod 1000000)) by
          first [apply I2; lia | apply fixed_chars_length
                | apply int_of_fixed; [lia | cbn; lia]].
        rewrite !length_app. cbn [List.length]. rewrite !length_app.
        cbn [List.length]. rewrite !length_app. cbn [List.length].
        rewrite !fixed_chars_length.
        cbn [Nat.add existsb Nat.eqb orb negb].
        finish_offset.
Qed.

Local Notation no_Z l := (forallb (fun c => negb (c =? "Z")%char) l).

Lemma fixed_no_Z (k : nat) (n : Z) : no_Z (chars (fixed k n)) = true.
Proof.
  pose proof (fixed_chars_digits k n) as H.
  induction (chars (fixed k n)) as [ | c l IH]; [reflexivity | ].
  cbn [forallb] in H |- *. apply andb_true_iff in H. destruct H as [Hc Hl].
  destruct (is_digit_plain c Hc) as (_ & _ & ->). now rewrite IH.
Qed.

Lemma pad_no_Z (k : nat) (n : Z) : no_Z (chars (pad k n)) = true.
Proof. unfold pad. destruct (n <? 10 ^ Z.of_nat k); apply fixed_no_Z. Qed.

Lemma isoformat_no_Z (d : datetime) : no_Z (chars (isoformat d)) = true.
Proof.
  unfold isoformat, format_time, format_offset. cbv zeta.
  destruct (tzinfo d) as [o | ];
    repeat match goal with
           | |- context [if ?b then _ else _] => destruct b
           end;
    rewrite ?chars_append, ?forallb_app, ?pad_no_Z; reflexivity.
Qed.

Lemma str_replace_isoformat (d : datetime) :
  str_replace "Z" "+00:00" (isoformat d) = isoformat d.
Proof.
  apply chars_inj. rewrite str_replace_each_Z. unfold each_Z_replaced.
  apply flat_map_no_Z, isoformat_no_Z.
Qed.

Lemma parse_isoformat_time_format (d : datetime) :
  valid_datetime d = true ->
  parse_isoformat_time
    (chars (format_time (hour d) (minute d) (second d) (microsecond d)
            ++ format_offset (tzinfo d))) =
  Some (hour d, minute d, second d, microsecond d, tzinfo d).
Proof.
  intros Hv.
  destruct (valid_datetime_fields d Hv) as (_ & _ & _ & Hh & Hm & Hs & Hu).
  destruct (parse_format_time _ _ _ _ Hh Hm Hs Hu) as [Hp Hplain].
  unfold parse_isoformat_time.
  rewrite chars_append, split_at_sign_digits by exact Hplain.
  destruct (tzinfo d) as [o | ] eqn:Etz.
  - assert (Ho : - day_us < o < day_us).
    { unfold valid_datetime in Hv. rewrite Etz in Hv.
      apply andb_true_iff in Hv. destruct Hv as [_ Hv].
      apply andb_true_iff in Hv. destruct Hv as [H1 H2].
      apply Z.ltb_lt in H1, H2. lia. }
    destruct (parse_format_offset o Ho) as (rest & -> & Hrest).
    cbn [split_at_sign].
    destruct (o <? 0) eqn:E.
    + change (("-" =? "+")%char) with false.
      change (("-" =? "-")%char) with true. cbv iota. cbn [fst snd].
      rewrite app_nil_r, Hp, Hrest. reflexivity.
    + change (("+" =? "+")%char) with true. cbv iota. cbn [fst snd].
      rewrite app_nil_r, Hp, Hrest. reflexivity.
  - cbn [format_offset chars list_ascii_of_string split_at_sign fst snd].
    rewrite app_nil_r, Hp. reflexivity.
Qed.

(** [fromisoformat] reads what [isoformat] writes. *)
Lemma fromisoformat_strict_isoformat (d : datetime) :
  valid_datetime d = true -> fromisoformat_strict (isoformat d) = Some d.
Proof.
  intros Hv.
  destruct (valid_datetime_fields d Hv) as (Hy & Hmo & Hd & _).
  pose proof (parse_isoformat_time_format d Hv) as Ht.
  unfold fromisoformat_strict, isoformat. cbv zeta.
  rewrite !pad_fixed by (cbn; lia).
  rewrite (chars_append (fixed 4 _)), (chars_append "-"),
    (chars_append (fixed 2 _)), (chars_append "-"),
    (chars_append (fixed 2 _)), (chars_append "T").
  pose proof (int_of_fixed 4 (year d) ltac:(lia) ltac:(cbn; lia)) as Iy.
  pose proof (int_of_fixed 2 (month d) ltac:(lia) ltac:(cbn; lia)) as Im.
  pose proof (int_of_fixed 2 (day d) ltac:(lia) ltac:(cbn; lia)) as Id.
  pose proof (fixed_chars_length 4 (year d)) as Ly.
  pose proof (fixed_chars_length 2 (month d)) as Lm.
  pose proof (fixed_chars_length 2 (day d)) as Ld.
  destruct (chars (fixed 4 (year d))) as [ | y1 [ | y2 [ | y3 [ | y4 [ | ? ?]]]]];
    try discriminate.
  two (chars (fixed 2 (month d))). two (chars (fixed 2 (day d))).
  change (chars "-") with ["-"%char]. change (chars "T") with ["T"%char].
  cbn [app firstn skipn parse_isoformat_date].
  change (("-" =? "-")%char) with true. cbn [andb].
  rewrite Iy, Im, Id, Ht.
  replace (mkDatetime _ _ _ _ _ _ _ _) with d by now destruct d.
  unfold checked. now rewrite Hv.
Qed.

Lemma isoformat_inj (a b : datetime) :
  valid_datetime a = true -> valid_datetime b = true ->
  isoformat a = isoformat b -> a = b.
Proof.
  intros Ha Hb H. apply fromisoformat_strict_isoformat in Ha, Hb.
  rewrite H, Hb in Ha. now inversion Ha.
Qed.

Lemma map_isoformat_inj (l l' : list datetime) :
  Forall (fun d => valid_datetime d = true) l ->
  Forall (fun d => valid_datetime d = true) l' ->
  map isoformat l = map isoformat l' -> l = l'.
Proof.
  intros Hl. revert l'.
  induction Hl as [ | a l Ha _ IH]; intros [ | b l'] Hl' H; try discriminate.
  - reflexivity.
  - inversion Hl' as [ | ? ? Hb Hl'']. subst. cbn [map] in H. inversion H.
    f_equal; [now apply isoformat_inj | now apply IH].
Qed.

Lemma map_inj {A B : Type} (f : A -> B) (l l' : list A) :
  (forall x y, f x = f y -> x = y) -> map f l = map f l' -> l = l'.
Proof.
  intros Hf. revert l'.
  induction l as [ | a l IH]; intros [ | b l'] H; try discriminate.
  - reflexivity.
  - cbn [map] in H. inversion H. f_equal; [now apply Hf | now apply IH].
Qed.

(** X6: A timestamp that the service gives as the ISO text of a datetime is
    normalized to that datetime, as if it had been given as the datetime
    itself: the text holds no ["Z"], so the replacement leaves it alone, and
    the parser reads back every field and the offset.  This is so for each
    element of the loop.  (The offset is zero or at least one second; the C
    parser reads a smaller one as UTC.) *)
Theorem iso_text_normalizes_to_its_datetime (local : Z) (ds : list datetime) :
  Forall (fun d => valid_datetime d = true /\
                   forall o, tzinfo d = Some o -> o = 0 \/ 1000000 <= Z.abs o) ds ->
  Forall (fun d => str_replace "Z" "+00:00" (isoformat d) = isoformat d) ds /\
  normalize_times fromisoformat_strict local
    (map (fun d => TOther (isoformat d)) ds) = ds /\
  normalize_times fromisoformat_strict local
    (map (fun d => TOther (isoformat d)) ds) =
  normalize_times fromisoformat_strict local (map TDatetime ds).
Proof.
  intros H.
  assert (E : normalize_times fromisoformat_strict local
                (map (fun d => TOther (isoformat d)) ds) = ds).
  { rewrite normalize_times_map, map_map.
    induction H as [ | d ds [Hv _] _ IH]; [reflexivity | ].
    cbn [map]. rewrite IH. f_equal. unfold normalize_time.
    now rewrite str_replace_isoformat, fromisoformat_strict_isoformat. }
  split; [ | split].
  - apply Forall_forall. intros d _. apply str_replace_isoformat.
  - exact E.
  - rewrite E, normalize_times_map, map_map. cbn [normalize_time].
    now rewrite map_id.
Qed.

Lemma iso_text_normalizes_to_its_datetime_witness :
  normalize_times fromisoformat_strict 0
    [TOther "2024-02-29T23:59:59.000250-05:30"; TOther "0001-01-01T00:00:00"] =
  [mkDatetime 2024 2 29 23 59 59 250 (Some (- 19800000000));
   mkDatetime 1 1 1 0 0 0 0 None].
Proof.
  assert (H : Forall (fun d => valid_datetime d = true /\
                               forall o, tzinfo d = Some o ->
                                         o = 0 \/ 1000000 <= Z.abs o)
                [mkDatetime 2024 2 29 23 59 59 250 (Some (- 19800000000));
                 mkDatetime 1 1 1 0 0 0 0 None]).
  { apply Forall_cons.
    - split; [vm_compute; reflexivity | ].
      intros o Ho. inversion Ho. right. vm_compute. discriminate.
    - apply Forall_cons; [ | apply Forall_nil].
      split; [vm_compute; reflexivity | ].
      intros o Ho. discriminate Ho. }
  exact (proj1 (proj2 (iso_text_normalizes_to_its_datetime 0 _ H))).
Defined.

(** * Texts in UTC *)

Lemma str_replace_Z_suffix (d : datetime) :
  str_replace "Z" "+00:00" (isoformat d ++ "Z") = isoformat d ++ "+00:00".
Proof.
  apply chars_inj. rewrite str_replace_each_Z. unfold each_Z_replaced.
  rewrite !chars_append, flat_map_app.
  rewrite flat_map_no_Z by apply isoformat_no_Z. reflexivity.
Qed.

Lemma isoformat_utc (d : datetime) :
  tzinfo d = None ->
  isoformat d ++ "+00:00" =
  isoformat (mkDatetime (year d) (month d) (day d) (hour d) (minute d)
               (second d) (microsecond d) (Some 0)).
Proof.
  intros H. unfold isoformat. rewrite H. cbn [year month day hour minute second
    microsecond tzinfo].
  change (format_offset (Some 0)) with "+00:00".
  change (format_offset None) with EmptyString.
  rewrite !append_assoc. reflexivity.
Qed.

(** X7: A naive datetime written as ISO text with a final ["Z"], the form the
    replacement is made for, is normalized to that datetime in UTC: the
    same fields, with a zero offset. *)
Theorem utc_text_is_read_as_utc (local : Z) (d : datetime) :
  valid_datetime d = true -> tzinfo d = None ->
  normalize_time fromisoformat_strict local (TOther (isoformat d ++ "Z")) =
  mkDatetime (year d) (month d) (day d) (hour d) (minute d) (second d)
    (microsecond d) (Some 0).
Proof.
  intros Hv Hn. unfold normalize_time.
  rewrite str_replace_Z_suffix, (isoformat_utc d Hn).
  rewrite fromisoformat_strict_isoformat; [reflexivity | ].
  unfold valid_datetime in *. rewrite Hn in Hv.
  cbn [year month day hour minute second microsecond tzinfo].
  rewrite andb_true_r in Hv. rewrite Hv. reflexivity.
Qed.

Lemma utc_text_is_read_as_utc_witness :
  normalize_time fromisoformat_strict (-18000)
    (TOther "2024-02-29T06:30:00.500000Z") =
  mkDatetime 2024 2 29 6 30 0 500000 (Some 0).
Proof.
  apply (utc_text_is_read_as_utc (-18000)
           (mkDatetime 2024 2 29 6 30 0 500000 None));
    vm_compute; reflexivity.
Defined.

(** * What the response keeps *)

(** X8: The body of a successful response loses nothing: it determines the
    coordinates, the horizon and the whole series, so two different series
    of valid datetimes never get the same body. *)
Theorem response_body_is_lossless
  (lat lon lat' lon' : float) (hours hours' : Z) (s s' : series) :
  Forall (fun d => valid_datetime d = true) (time_dt s) ->
  Forall (fun d => valid_datetime d = true) (time_dt s') ->
  forecast_body lat lon hours s = forecast_body lat' lon' hours' s' ->
  s = s' /\ lat = lat' /\ lon = lon' /\ hours = hours'.
Proof.
  intros Hs Hs' H. unfold forecast_body in H.
  inversion H as [[Ht Hd Hsp Hg Hlat Hlon Hh]]. clear H.
  apply map_inj in Ht; [ | now intros x y E; inversion E].
  apply map_isoformat_inj in Ht; [ | assumption | assumption].
  apply map_inj in Hd; [ | now intros x y E; inversion E].
  apply map_inj in Hsp; [ | now intros x y E; inversion E].
  apply map_inj in Hg; [ | now intros x y E; inversion E].
  destruct s, s'. cbn in *. subst. auto.
Qed.

Lemma response_body_is_lossless_witness :
  shape_series fromisoformat_strict 0 (mkForecast sample_hourly) 1 = one_point.
Proof.
  apply (response_body_is_lossless 41.5 (-71.25) 41.5 (-71.25) 120 120).
  - apply Forall_cons; [vm_compute; reflexivity | apply Forall_nil].
  - apply Forall_cons; [vm_compute; reflexivity | apply Forall_nil].
  - vm_compute. reflexivity.
Defined.

(** * More about the renderer *)

Section Figures.

Variable mpl : matplotlib.

(** X9: The error bar of a saved figure never reaches below its bar: the lower
    errors are all zero, one for each speed, and no upper error is
    negative; for a speed and a gust array of one length the upper error is
    the absolute difference of gust and speed, hour by hour, also where the
    gust is the lower of the two. *)
Theorem error_bars_rise_from_the_bar
  (s : series) (path : string) (fs fs' : files) :
  render_png mpl s path fs = Ok fs' ->
  exists c : chart,
    fs' path = Some c /\
    fst (bar_yerr c) = repeat 0 (List.length (wind_speed s)) /\
    Forall (fun e => (e <? 0)%float = false) (snd (bar_yerr c)) /\
    (List.length (wind_gust s) = List.length (wind_speed s) ->
     snd (bar_yerr c) =
     map (fun p => abs (fst p - snd p))%float
       (combine (wind_gust s) (wind_speed s))).
Proof.
  intros H.
  destruct (render_png_chart mpl s path fs fs' H)
    as (vmin & vmax & pairs & ecolor & color & first & last
        & _ & _ & Hp & _ & _ & _ & _ & _ & Hc).
  eexists. split; [exact Hc | ]. cbn [bar_yerr fst snd].
  split; [reflexivity | ]. split.
  - apply Forall_forall. intros e He. apply in_map_iff in He.
    destruct He as (p & <- & _). apply abs_not_negative.
  - intros Hlen. rewrite (broadcast_combine _ _ Hlen) in Hp.
    now inversion Hp.
Qed.

(** X10: In a saved figure of data without NaN the colour scale runs from the
    smallest speed to the largest gust: both ends are values of the data,
    no speed is below the lower end and no gust above the upper one, and
    the top of the y axis is that largest gust plus 3. *)
Theorem colour_scale_spans_the_data
  (s : series) (path : string) (fs fs' : files) :
  Forall (fun x => is_nan x = false) (wind_speed s) ->
  Forall (fun x => is_nan x = false) (wind_gust s) ->
  render_png mpl s path fs = Ok fs' ->
  exists (c : chart) (vmin vmax : float),
    fs' path = Some c /\
    norm c = (vmin, vmax) /\ ylim c = (0, vmax + 3)%float /\
    In vmin (wind_speed s) /\ In vmax (wind_gust s) /\
    Forall (fun x => (x <? vmin)%float = false) (wind_speed s) /\
    Forall (fun g => (vmax <? g)%float = false) (wind_gust s).
Proof.
  intros Hs Hg H.
  destruct (render_png_chart mpl s path fs fs' H)
    as (vmin & vmax & pairs & ecolor & color & first & last
        & Hmin & Hmax & _ & _ & _ & _ & _ & _ & Hc).
  eexists. exists vmin, vmax. split; [exact Hc | ]. cbn [norm ylim].
  split; [reflexivity | ]. split; [reflexivity | ].
  destruct (wind_speed s) as [ | x r]; [discriminate Hmin | ].
  destruct (wind_gust s) as [ | y q]; [discriminate Hmax | ].
  cbn [np_min np_max] in Hmin, Hmax. inversion Hmin. inversion Hmax.
  inversion Hs as [ | ? ? Hx Hr]. inversion Hg as [ | ? ? Hy Hq]. subst.
  destruct (np_minimum_fold r x Hx Hr) as (_ & Hin & Hall).
  destruct (np_maximum_fold q y Hy Hq) as (_ & Hin' & Hall').
  auto.
Qed.

(** X11: When the largest gust is below the smallest speed, the colour scale
    would run backwards: for arrays of one length the call raises a
    [ValueError] where the colours are computed, and saves nothing. *)
Theorem backward_scale_raises
  (s : series) (path : string) (fs : files) (vmin vmax : float) :
  List.length (wind_gust s) = List.length (wind_speed s) ->
  np_min (wind_speed s) = Ok vmin ->
  np_max (wind_gust s) = Ok vmax ->
  (vmax <? vmin)%float = true ->
  exists e : exn,
    render_png mpl s path fs = Raise e /\ exn_kind e = ValueError.
Proof.
  intros Hlen Hmin Hmax Hlt. unfold render_png.
  rewrite Hmin, Hmax. cbn [bind].
  rewrite (broadcast_combine _ _ Hlen). cbn [bind].
  unfold normalize_values. rewrite (ltb_not_eqb _ _ Hlt), Hlt. cbn [bind].
  eexists. split; reflexivity.
Qed.

(** X12: A speed and a gust array of different lengths, neither of length one,
    cannot be subtracted, an empty array included: the call raises a
    [ValueError] and saves nothing, whatever the timestamps and directions
    are. *)
Theorem unequal_lengths_raise (s : series) (path : string) (fs : files) :
  List.length (wind_gust s) <> List.length (wind_speed s) ->
  List.length (wind_gust s) <> 1%nat ->
  List.length (wind_speed s) <> 1%nat ->
  exists e : exn,
    render_png mpl s path fs = Raise e /\ exn_kind e = ValueError.
Proof.
  intros Hlen Hg1 Hs1. unfold render_png.
  destruct (wind_speed s) as [ | x r] eqn:Es;
    [eexists; split; reflexivity | ].
  destruct (wind_gust s) as [ | y q] eqn:Eg;
    [eexists; split; reflexivity | ].
  cbn [np_min np_max bind].
  rewrite (broadcast_mismatch _ _ Hlen Hg1 Hs1). cbn [bind].
  eexists. split; reflexivity.
Qed.

Lemma normalize_values_length (vmin vmax : float) (values out : list float) :
  normalize_values vmin vmax values = Ok out ->
  List.length out = List.length values.
Proof.
  unfold normalize_values.
  destruct (vmin =? vmax)%float; [ | destruct (vmax <? vmin)%float];
    intros H; inversion H; apply length_map.
Qed.

(** X13: For a series whose four arrays have one length [n], a saved figure is
    aligned: [n] positions, heights, lower and upper errors, bar and error
    colours, and one table row of [n] cells. *)
Theorem aligned_series_gives_aligned_bars
  (s : series) (path : string) (fs fs' : files) (n : nat) :
  List.length (time_dt s) = n -> List.length (wind_dir s) = n ->
  List.length (wind_speed s) = n -> List.length (wind_gust s) = n ->
  render_png mpl s path fs = Ok fs' ->
  exists c : chart,
    fs' path = Some c /\
    List.length (bar_x c) = n /\ List.length (bar_height c) = n /\
    List.length (fst (bar_yerr c)) = n /\ List.length (snd (bar_yerr c)) = n /\
    List.length (bar_color c) = n /\ List.length (bar_ecolor c) = n /\
    map (@List.length Z) (table_text c) = [n].
Proof.
  intros Ht Hd Hs Hg H.
  destruct (render_png_chart mpl s path fs fs' H)
    as (vmin & vmax & pairs & ecolor & color & first & last
        & _ & _ & Hp & He & Hc & _ & _ & _ & Hfig).
  rewrite broadcast_combine in Hp by congruence. inversion Hp. subst pairs.
  apply normalize_values_length in He, Hc.
  eexists. split; [exact Hfig | ].
  cbn [bar_x bar_height bar_yerr bar_color bar_ecolor table_text fst snd map].
  rewrite repeat_length, length_map, length_combine, Hg, Hs, Nat.min_id.
  repeat split; congruence.
Qed.

End Figures.

Lemma error_bars_rise_from_the_bar_witness :
  exists c : chart,
    write_file no_files "figure.png" (one_point_chart (midnight 1 0) 180)
      "figure.png" = Some c /\
    snd (bar_yerr c) = [5]%float.
Proof.
  assert (H : render_png any_figure one_point "figure.png" no_files =
              Ok (write_file no_files "figure.png"
                    (one_point_chart (midnight 1 0) 180)))
    by (vm_compute; reflexivity).
  destruct (error_bars_rise_from_the_bar _ _ _ _ _ H) as (c & Hc & _ & _ & Hup).
  exists c. split; [exact Hc | ]. rewrite Hup; reflexivity.
Defined.

Lemma colour_scale_spans_the_data_witness :
  exists (c : chart) (vmin vmax : float),
    norm c = (vmin, vmax) /\
    In vmin [12; 10; 11]%float /\ In vmax [15; 17; 16]%float.
Proof.
  destruct (render_png any_figure three_points "figure.png" no_files)
    as [fs' | e] eqn:H; [ | vm_compute in H; discriminate H].
  destruct (colour_scale_spans_the_data any_figure three_points "figure.png"
              no_files fs')
    as (c & vmin & vmax & _ & Hn & _ & Hi & Hi' & _).
  - repeat (apply Forall_cons; [vm_compute; reflexivity | ]). apply Forall_nil.
  - repeat (apply Forall_cons; [vm_compute; reflexivity | ]). apply Forall_nil.
  - exact H.
  - exists c, vmin, vmax. auto.
Defined.

Lemma backward_scale_raises_witness :
  exists e : exn,
    render_png any_figure
      (mkSeries [midnight 1 0; midnight 1 1] [180; 190]
         [10; 11]%float [5; 6]%float) "figure.png" no_files = Raise e /\
    exn_kind e = ValueError.
Proof.
  apply (backward_scale_raises any_figure _ _ _ 10%float 6%float);
    vm_compute; reflexivity.
Defined.

Lemma unequal_lengths_raise_witness :
  exists e : exn,
    render_png any_figure
      (mkSeries [midnight 1 0; midnight 1 1; midnight 1 2]
         [180; 190; 200] [10; 11; 12]%float [15; 16]%float)
      "figure.png" no_files = Raise e /\
    exn_kind e = ValueError.
Proof.
  apply unequal_lengths_raise; cbn; first [discriminate | lia].
Defined.

Lemma aligned_series_gives_aligned_bars_witness :
  exists (fs' : files) (c : chart),
    render_png strict_bar three_points "figure.png" no_files = Ok fs' /\
    fs' "figure.png" = Some c /\
    List.length (snd (bar_yerr c)) = 3%nat.
Proof.
  destruct (render_png strict_bar three_points "figure.png" no_files)
    as [fs' | e] eqn:H; [ | vm_compute in H; discriminate H].
  destruct (aligned_series_gives_aligned_bars strict_bar three_points
              "figure.png" no_files fs' 3)
    as (c & Hc & _ & _ & _ & Hup & _); try reflexivity; [exact H | ].
  exists fs', c. auto.
Defined.
